(** * Crypto-Trend-Analysis: the analysis engine of [analysis_logic.py]

    A shallow embedding of [src/analysis_logic.py] (and of the table loop of
    [src/app.py]) together with the properties of its natural-language
    specification.

    - Prices and indicator values are IEEE-754 binary64 numbers, as numpy's
      [float64] cells are: they are modelled by Rocq's primitive floats, whose
      comparisons are false on NaN exactly like Python's.
    - A [DataFrame] is the list of its OHLCV bars plus the derived columns,
      kept as an association list from column name to column, because the
      code tests ['SMA200' in df.columns] and appends, renames and reads
      columns by name.
    - Python exceptions are values of [PyExc]; a computation that may raise
      returns an [outcome].  Code that talks to the exchange, sleeps or prints
      runs in the monad [M], which threads a [World] and keeps its effects
      when an exception passes through. *)

From Stdlib Require Import ZArith List String Ascii Bool Lia QArith.
From Stdlib Require Import Floats DecimalString.
Import ListNotations.

Local Open Scope string_scope.
Local Open Scope Z_scope.

(* ===================================================================== *)
(** * Python values: exceptions and outcomes *)
(* ===================================================================== *)

(** The exceptions the modelled code can meet.  [Exception msg] stands for
    whatever the exchange client raises; [str(e)] is its message. *)
Inductive PyExc : Type :=
| IndexError (msg : string)
| KeyError (key : string)
| AttributeError (msg : string)
| TypeError (msg : string)
| Exception (msg : string).

Definition str_exc (e : PyExc) : string :=
  match e with
  | IndexError m => m
  | KeyError k => "'" ++ k ++ "'"
  | AttributeError m => m
  | TypeError m => m
  | Exception m => m
  end.

Inductive outcome (A : Type) : Type :=
| Returned (a : A)
| Raised (e : PyExc).
Arguments Returned {A} a.
Arguments Raised {A} e.

Definition obind {A B} (o : outcome A) (k : A -> outcome B) : outcome B :=
  match o with
  | Returned a => k a
  | Raised e => Raised e
  end.

Declare Scope outcome_scope.
Delimit Scope outcome_scope with outcome.
Notation "'let?' x ':=' c 'in' k" := (obind c (fun x => k))
  (at level 10, x name, c at level 100, k at level 200) : outcome_scope.

(** Whether a call returned a value rather than raised. *)
Definition returns {A} (o : outcome A) : bool :=
  match o with Returned _ => true | Raised _ => false end.

(** [str(n)] of a Python integer. *)
Definition str_int (n : Z) : string := NilZero.string_of_int (Z.to_int n).

(* ===================================================================== *)
(** * Configuration and the cycle phase *)
(* ===================================================================== *)

Definition SYMBOL : string := "BTC/USDT".

(** The dict literal [TIMEFRAMES]; iteration follows insertion order. *)
Definition TIMEFRAMES : list (string * string) :=
  [("1M", "1M"); ("1w", "1w"); ("1d", "1d"); ("4h", "4h"); ("1h", "1h")].

Definition LIMIT : nat := 1000.
Definition EXCHANGE_ID : string := "binance".
Definition CYCLE_START_YEAR : Z := 2022.

(** [(current_year - CYCLE_START_YEAR) % 4]: Python's [%] takes the sign of
    the divisor, as [Z.modulo] does. *)
Definition cycle_position (current_year : Z) : Z :=
  (current_year - CYCLE_START_YEAR) mod 4.

(** [get_anomaly_phase], with the year read from [datetime.datetime.now()]
    passed in.  Returns [(phase, bias)]. *)
Definition get_anomaly_phase (current_year : Z) : string * string :=
  if (cycle_position current_year =? 0) && negb (current_year =? CYCLE_START_YEAR)
  then ("下降 (調整年)", "ショート(売り)優先")
  else if (cycle_position current_year =? 0) && (current_year =? CYCLE_START_YEAR)
  then ("下降 (底打ち年)", "ショート(売り)優先")
  else ("上昇 (Year " ++ str_int (cycle_position current_year) ++ ")",
        "ロング(買い)優先").

(** The two values of the spec's bias enum, as the code spells them. *)
Definition ShortPreferred : string := "ショート(売り)優先".
Definition LongPreferred : string := "ロング(買い)優先".

Definition phase_of (current_year : Z) : string := fst (get_anomaly_phase current_year).
Definition bias_of (current_year : Z) : string := snd (get_anomaly_phase current_year).

(* ===================================================================== *)
(** * Data frames *)
(* ===================================================================== *)

(** One row of the exchange's answer, [[timestamp, open, high, low, close,
    volume]]; the timestamp is in milliseconds since the epoch. *)
Record Bar : Type := mkBar {
  timestamp : Z;
  open : float;
  high : float;
  low : float;
  close : float;
  volume : float
}.

Definition Column : Type := list float.

(** [pd.DataFrame(ohlcv, columns=[...])] and what the indicator step adds
    to it.  [derived] keeps the added columns in the order of [df.columns]. *)
Record DataFrame : Type := mkDataFrame {
  bars : list Bar;
  derived : list (string * Column)
}.

Definition base_columns : list string :=
  ["timestamp"; "open"; "high"; "low"; "close"; "volume"].

(** [len(df)] and [df.empty]. *)
Definition len (df : DataFrame) : nat := List.length (bars df).
Definition empty (df : DataFrame) : bool := Nat.eqb (len df) 0.

(** [df.columns] and [name in df.columns]. *)
Definition columns (df : DataFrame) : list string :=
  (base_columns ++ map fst (derived df))%list.

Definition has_column (name : string) (df : DataFrame) : bool :=
  existsb (String.eqb name) (columns df).

(** [df['close']]. *)
Definition close_column (df : DataFrame) : Column := map close (bars df).

(** A column is aligned on the frame's index when it is attached: the cells
    past its end are NaN and the cells past the frame's end are dropped. *)
Definition align (n : nat) (col : Column) : Column :=
  (firstn n col ++ repeat nan (n - List.length col))%list.

(** [df[name] = col]: replaces the column in place, or appends it. *)
Fixpoint assign (name : string) (col : Column) (cols : list (string * Column))
  : list (string * Column) :=
  match cols with
  | [] => [(name, col)]
  | (n, c) :: rest =>
      if String.eqb n name then (name, col) :: rest
      else (n, c) :: assign name col rest
  end.

Definition set_column (name : string) (col : Column) (df : DataFrame) : DataFrame :=
  mkDataFrame (bars df) (assign name (align (len df) col) (derived df)).

(** [pd.concat([df, other], axis=1)] for columns on the same index. *)
Definition concat_columns (df : DataFrame) (other : list (string * Column)) : DataFrame :=
  mkDataFrame (bars df)
    (derived df ++ map (fun nc => (fst nc, align (len df) (snd nc))) other)%list.

(** [df.rename(columns=mapping, inplace=True)]. *)
Definition rename_one (mapping : list (string * string)) (name : string) : string :=
  match find (fun kv => String.eqb (fst kv) name) mapping with
  | Some kv => snd kv
  | None => name
  end.

Definition rename (mapping : list (string * string)) (df : DataFrame) : DataFrame :=
  mkDataFrame (bars df)
    (map (fun nc => (rename_one mapping (fst nc), snd nc)) (derived df)).

(** A row as [df.iloc[i]] gives it: the bar and the cell of every derived
    column. *)
Record Row : Type := mkRow {
  row_bar : Bar;
  row_cells : list (string * float)
}.

Definition out_of_bounds : PyExc :=
  IndexError "single positional indexer is out-of-bounds".

(** [df.iloc[i]]; a negative [i] counts from the end, and a position outside
    the frame raises [IndexError]. *)
Definition iloc (df : DataFrame) (i : Z) : outcome Row :=
  let n := Z.of_nat (len df) in
  let j := if i <? 0 then n + i else i in
  if (j <? 0) || (n <=? j) then Raised out_of_bounds
  else
    match nth_error (bars df) (Z.to_nat j) with
    | Some b =>
        Returned (mkRow b
          (map (fun nc => (fst nc, nth (Z.to_nat j) (snd nc) nan)) (derived df)))
    | None => Raised out_of_bounds
    end.

(** [row['close']]: a base column, always there. *)
Definition row_close (r : Row) : float := close (row_bar r).

(** [row[key]] for a derived column; [KeyError] when the row has none. *)
Definition row_get (r : Row) (key : string) : outcome float :=
  match find (fun kv => String.eqb (fst kv) key) (row_cells r) with
  | Some kv => Returned (snd kv)
  | None => Raised (KeyError key)
  end.

(** [row.get(key, default)]. *)
Definition row_get_default (r : Row) (key : string) (default : float) : float :=
  match find (fun kv => String.eqb (fst kv) key) (row_cells r) with
  | Some kv => snd kv
  | None => default
  end.

(** A frame as [fetch_data] builds it: bars only. *)
Definition frame_of_bars (bs : list Bar) : DataFrame := mkDataFrame bs [].

(* ===================================================================== *)
(** * Indicators *)
(* ===================================================================== *)

(** [pandas_ta] is not part of the repository: its three functions are
    taken as they come.  [ta_macd close fast slow signal] gives the MACD
    line, the histogram and the signal line, which [pandas_ta] names
    [MACD_f_s_g], [MACDh_f_s_g] and [MACDs_f_s_g]. *)
Record TechnicalAnalysis : Type := mkTA {
  ta_sma : Column -> nat -> Column;
  ta_ema : Column -> nat -> Column;
  ta_macd : Column -> nat -> nat -> nat -> Column * Column * Column
}.

Definition str_nat (n : nat) : string := str_int (Z.of_nat n).

Definition macd_frame (ta : TechnicalAnalysis) (c : Column) (fast slow signal : nat)
  : list (string * Column) :=
  let suffix := "_" ++ str_nat fast ++ "_" ++ str_nat slow ++ "_" ++ str_nat signal in
  match ta_macd ta c fast slow signal with
  | (line, hist, sig) =>
      [("MACD" ++ suffix, line); ("MACDh" ++ suffix, hist); ("MACDs" ++ suffix, sig)]
  end.

(** [calculate_indicators]: [None] and short frames are handed back as they
    came. *)
Definition calculate_indicators (ta : TechnicalAnalysis) (df : option DataFrame)
  : option DataFrame :=
  match df with
  | None => None
  | Some d =>
      if (len d <? 200)%nat then Some d
      else
        let d := set_column "SMA7" (ta_sma ta (close_column d) 7) d in
        let d := set_column "SMA25" (ta_sma ta (close_column d) 25) d in
        let d := set_column "SMA100" (ta_sma ta (close_column d) 100) d in
        let d := set_column "SMA200" (ta_sma ta (close_column d) 200) d in
        let d := set_column "EMA20" (ta_ema ta (close_column d) 20) d in
        let macd := macd_frame ta (close_column d) 12 26 9 in
        let d := concat_columns d macd in
        let d := rename [("MACD_12_26_9", "MACD");
                         ("MACDs_12_26_9", "MACD_Signal");
                         ("MACDh_12_26_9", "MACD_Hist")] d in
        Some d
  end.

(** The fields the indicator step derives, under their final names. *)
Definition derived_fields : list string :=
  ["SMA7"; "SMA25"; "SMA100"; "SMA200"; "EMA20"; "MACD"; "MACD_Signal"; "MACD_Hist"].

(** The code keeps no flag for a short history: a frame lacks its long
    moving averages, and [analyze_trend] tests exactly that. *)
Definition insufficientHistory (df : DataFrame) : bool :=
  negb (has_column "SMA200" df) || negb (has_column "SMA100" df).

(* ===================================================================== *)
(** * Trend *)
(* ===================================================================== *)

Local Open Scope outcome_scope.

(** [analyze_trend]; [timeframe] is not used by the code. *)
Definition analyze_trend (df : option DataFrame) (timeframe : string) : outcome string :=
  match df with
  | None => Returned "N/A"
  | Some d =>
      if empty d then Returned "N/A"
      else if negb (has_column "SMA200" d) || negb (has_column "SMA100" d)
      then Returned "データ不足 (>200本必要)"
      else
        let? last_row := iloc d (-1) in
        let close := row_close last_row in
        let? sma200 := row_get last_row "SMA200" in
        let? sma100 := row_get last_row "SMA100" in
        if is_nan sma200 then Returned "データ不足"
        else if (sma200 <? close)%float && (sma100 <? close)%float
        then Returned "上昇トレンド"
        else if (close <? sma200)%float && (close <? sma100)%float
        then Returned "下降トレンド"
        else Returned "レンジ / 中立"
  end.

(** The spec's [TrendLabel] and the strings the code returns for it. *)
Inductive TrendLabel : Type := Up | Down | Range | InsufficientData | NotAvailable.

Definition trend_label (text : string) : option TrendLabel :=
  if String.eqb text "N/A" then Some NotAvailable
  else if String.eqb text "データ不足 (>200本必要)" then Some InsufficientData
  else if String.eqb text "データ不足" then Some InsufficientData
  else if String.eqb text "上昇トレンド" then Some Up
  else if String.eqb text "下降トレンド" then Some Down
  else if String.eqb text "レンジ / 中立" then Some Range
  else None.

(** [TrendClassifier.classify]: the label of what [analyze_trend] returns. *)
Definition classify (df : option DataFrame) (timeframe : string) : outcome (option TrendLabel) :=
  let? text := analyze_trend df timeframe in Returned (trend_label text).

(* ===================================================================== *)
(** * Signals *)
(* ===================================================================== *)

Inductive SignalKind : Type :=
| MacdGoldenCrossLow | ReturnMoveBuy | MacdDeadCrossHigh | ReturnMoveSell.

Definition signal_text (k : SignalKind) : string :=
  match k with
  | MacdGoldenCrossLow => "MACD ゴールデンクロス (安値圏)"
  | ReturnMoveBuy => "リターンムーブ買いの可能性 (価格がEMA20に接近 + MACD好転)"
  | MacdDeadCrossHigh => "MACD デッドクロス (高値圏)"
  | ReturnMoveSell => "リターンムーブ売りの可能性 (価格がEMA20に接近 + MACD悪化)"
  end.

(** The f-string of each alert. *)
Definition signal_message (timeframe : string) (k : SignalKind) : string :=
  "[" ++ timeframe ++ "] " ++ signal_text k.

(** The binary64 number the literal [0.005] denotes. *)
Definition NEAR : float := 0x1.47ae147ae147bp-8%float.

(** [detect_signals].  The two rows are read before any column is looked
    for, as in the source. *)
Definition detect_signals (df : option DataFrame) (timeframe : string)
  : outcome (list string) :=
  match df with
  | None => Returned []
  | Some d =>
      let signals : list string := [] in
      let? last_row := iloc d (-1) in
      let? prev_row := iloc d (-2) in
      let close := row_close last_row in
      if negb (has_column "EMA20" d) then Returned signals
      else
        let? ema20 := row_get last_row "EMA20" in
        let dist_to_ema20 := (abs (close - ema20) / close)%float in
        let is_near_ema20 := (dist_to_ema20 <? NEAR)%float in
        if negb (has_column "MACD" d) then Returned signals
        else
          let? macd := row_get last_row "MACD" in
          let? signal := row_get last_row "MACD_Signal" in
          let? hist := row_get last_row "MACD_Hist" in
          let? prev_hist := row_get prev_row "MACD_Hist" in
          let? prev_macd := row_get prev_row "MACD" in
          let? prev_signal := row_get prev_row "MACD_Signal" in
          let is_gc := (prev_macd <=? prev_signal)%float && (signal <? macd)%float in
          let is_dc := (prev_signal <=? prev_macd)%float && (macd <? signal)%float in
          let hist_improving := (prev_hist <? hist)%float && (hist <? 0)%float in
          let hist_deteriorating := (hist <? prev_hist)%float && (0 <? hist)%float in
          let signals :=
            if (macd <? 0)%float then
              let signals :=
                if is_gc
                then (signals ++ [signal_message timeframe MacdGoldenCrossLow])%list
                else signals in
              if is_near_ema20 && hist_improving
              then (signals ++ [signal_message timeframe ReturnMoveBuy])%list
              else signals
            else signals in
          let signals :=
            if (0 <? macd)%float then
              let signals :=
                if is_dc
                then (signals ++ [signal_message timeframe MacdDeadCrossHigh])%list
                else signals in
              if is_near_ema20 && hist_deteriorating
              then (signals ++ [signal_message timeframe ReturnMoveSell])%list
              else signals
            else signals in
          Returned signals
  end.

(* ===================================================================== *)
(** * Effects: the exchange, the clock and the terminal *)
(* ===================================================================== *)

(** What a run has done so far: how many requests the exchange has
    received, every [time.sleep] in order (in seconds), and every printed
    line. *)
Record World : Type := mkWorld {
  calls : nat;
  slept : list Q;
  printed : list string
}.

Definition start : World := mkWorld 0 [] [].

(** A computation that may raise; its effects up to the raise stay. *)
Definition M (A : Type) : Type := World -> outcome A * World.

Definition ret {A} (a : A) : M A := fun w => (Returned a, w).

Definition bind {A B} (c : M A) (k : A -> M B) : M B :=
  fun w =>
    match c w with
    | (Returned a, w') => k a w'
    | (Raised e, w') => (Raised e, w')
    end.

Definition lift {A} (o : outcome A) : M A := fun w => (o, w).

(** [try: body  except Exception as e: handler e]. *)
Definition try_except {A} (body : M A) (handler : PyExc -> M A) : M A :=
  fun w =>
    match body w with
    | (Returned a, w') => (Returned a, w')
    | (Raised e, w') => handler e w'
    end.

Declare Scope py_scope.
Delimit Scope py_scope with py.
Notation "x <- c ;; k" := (bind c (fun x => k))
  (at level 61, c at next level, right associativity) : py_scope.
Notation "c ;; k" := (bind c (fun _ => k))
  (at level 61, right associativity) : py_scope.

Definition sleep (seconds : Q) : M unit :=
  fun w => (Returned tt, mkWorld (calls w) (slept w ++ [seconds])%list (printed w)).

Definition print (line : string) : M unit :=
  fun w => (Returned tt, mkWorld (calls w) (slept w) (printed w ++ [line])%list).

(** The exchange seen from the client: what its [n]-th request (counting
    from 0) answers for a symbol, a timeframe and a limit, a list of bars
    or an exception. *)
Definition Exchange : Type := nat -> string -> string -> nat -> outcome (list Bar).

(** [exchange.fetch_ohlcv(symbol, timeframe, limit=limit)]. *)
Definition fetch_ohlcv (exchange : Exchange) (symbol timeframe : string) (limit : nat)
  : M (list Bar) :=
  fun w =>
    (exchange (calls w) symbol timeframe limit,
     mkWorld (S (calls w)) (slept w) (printed w)).

Local Open Scope py_scope.

(** How one turn of a [for] loop ends: it goes on to the next turn with the
    loop's variables, or the function returns. *)
Inductive turn (S A : Type) : Type :=
| Continue (s : S)
| Return (a : A).
Arguments Continue {S A} s.
Arguments Return {S A} a.

(** [for attempt in range(retries)] of [fetch_data], from turn [attempt] on
    with [remaining] turns to go; [last_error] is the loop's variable. *)
Fixpoint fetch_loop (exchange : Exchange) (symbol timeframe : string) (limit retries : nat)
    (remaining attempt : nat) (last_error : string)
  : M (option DataFrame * option string) :=
  match remaining with
  | O => ret (None, Some last_error)
  | S remaining' =>
      t <- try_except
             (ohlcv <- fetch_ohlcv exchange symbol timeframe limit ;;
              match ohlcv with
              | [] =>
                  sleep 1 ;;
                  ret (Continue "Exchange returned 0 bars")
              | _ :: _ =>
                  ret (Return (Some (frame_of_bars ohlcv), @None string))
              end)
             (fun e =>
                print ("Error fetching data for " ++ timeframe ++ " (Attempt "
                       ++ str_nat (attempt + 1) ++ "/" ++ str_nat retries ++ "): "
                       ++ str_exc e) ;;
                sleep (inject_Z (1 * (Z.of_nat attempt + 1))) ;;
                ret (Continue (str_exc e))) ;;
      match t with
      | Continue last_error' =>
          fetch_loop exchange symbol timeframe limit retries remaining' (S attempt) last_error'
      | Return r => ret r
      end
  end.

(** [fetch_data(exchange, symbol, timeframe, limit, retries=3)]: returns
    [(df, None)] or [(None, last_error)]. *)
Definition fetch_data (exchange : Exchange) (symbol timeframe : string) (limit retries : nat)
  : M (option DataFrame * option string) :=
  fetch_loop exchange symbol timeframe limit retries retries 0 "Unknown error".

Definition default_retries : nat := 3.

(* ===================================================================== *)
(** * The command-line run: the loop of [main] *)
(* ===================================================================== *)

(** A cell of the summary table: [main] stores the price as a number and
    the rest as text. *)
Inductive Cell : Type :=
| CStr (s : string)
| CNum (f : float).

(** Python's number formatting, [f"{x:.2f}"] and [f"{x:,.2f}"], is taken as
    it comes. *)
Record Formatter : Type := mkFormatter {
  format_2f : float -> string;
  format_comma_2f : float -> string
}.

(** [str(error)] for the second component of [fetch_data]'s result. *)
Definition str_opt (error : option string) : string :=
  match error with
  | Some s => s
  | None => "None"
  end.

(** The variables [main] updates in its loop. *)
Record MainState : Type := mkMainState {
  trend_summary : list (string * string);
  all_signals : list string;
  rows : list (list Cell)
}.

Definition main_init : MainState := mkMainState [] [] [].

(** [df.iloc[-1][name] if name in df.columns and not pd.isna(df.iloc[-1][name])
    else 0]. *)
Definition last_or_zero (d : DataFrame) (name : string) : outcome float :=
  if has_column name d then
    let? r := iloc d (-1) in
    let? v := row_get r name in
    if negb (is_nan v) then
      let? r := iloc d (-1) in
      row_get r name
    else Returned 0%float
  else Returned 0%float.

(** [d[key] = value] on a dict kept as an association list, in insertion
    order. *)
Fixpoint dict_set {V : Type} (key : string) (value : V) (d : list (string * V))
  : list (string * V) :=
  match d with
  | [] => [(key, value)]
  | (k, v) :: rest =>
      if String.eqb k key then (key, value) :: rest
      else (k, v) :: dict_set key value rest
  end.

Section Run.

Variable ta : TechnicalAnalysis.
Variable fmt : Formatter.
Variable exchange : Exchange.

(** One turn of [for tf_key, tf_val in TIMEFRAMES.items()] in [main]. *)
Definition main_turn (st : MainState) (tf : string * string) : M MainState :=
  let tf_key := fst tf in
  let tf_val := snd tf in
  print (tf_key ++ "のデータを取得中...") ;;
  r <- fetch_data exchange SYMBOL tf_val LIMIT default_retries ;;
  st' <- match fst r with
         | Some d0 =>
             let df := calculate_indicators ta (Some d0) in
             trend <- lift (analyze_trend df tf_key) ;;
             signals <- lift (detect_signals df tf_key) ;;
             match df with
             | Some d =>
                 last <- lift (iloc d (-1)) ;;
                 let last_price := row_close last in
                 sma200 <- lift (last_or_zero d "SMA200") ;;
                 macd_val <- lift (last_or_zero d "MACD") ;;
                 ret (mkMainState
                        (dict_set tf_key trend (trend_summary st))
                        (all_signals st ++ signals)%list
                        (rows st ++ [[CStr tf_key; CNum last_price; CStr trend;
                                      CStr (format_2f fmt sma200);
                                      CStr (format_2f fmt macd_val)]])%list)
             | None =>
                 lift (Raised (AttributeError "'NoneType' object has no attribute 'iloc'"))
             end
         | None =>
             print ("Error fetching " ++ tf_key ++ ": " ++ str_opt (snd r)) ;;
             ret st
         end ;;
  sleep (1 # 2) ;;
  ret st'.

(** The whole loop over a table of timeframes. *)
Fixpoint main_loop (timeframes : list (string * string)) (st : MainState) : M MainState :=
  match timeframes with
  | [] => ret st
  | tf :: rest => st' <- main_turn st tf ;; main_loop rest st'
  end.

End Run.

(** The line feed that Python writes as a backslash and an n. *)
Definition nl : string := String (ascii_of_nat 10) "".

Definition RULE : string := "---------------------------------------------".

(** [for sig in all_signals: print(...)]. *)
Fixpoint print_signals (signals : list string) : M unit :=
  match signals with
  | [] => ret tt
  | sig :: rest => print ("🔥 " ++ sig) ;; print_signals rest
  end.

Section Main.

Variable ta : TechnicalAnalysis.
Variable fmt : Formatter.
Variable exchange : Exchange.

(** [pd.DataFrame(rows, columns=[...]).to_string(index=False)], taken as
    it comes. *)
Variable to_string : list (list Cell) -> string.

(** [main()], with the year of [datetime.datetime.now()] passed in. *)
Definition main (current_year : Z) : M unit :=
  print "ビットコイン・トレンド分析ツールを起動中..." ;;
  print RULE ;;
  let phase := fst (get_anomaly_phase current_year) in
  let bias := snd (get_anomaly_phase current_year) in
  print ("サイクルフェーズ: " ++ phase) ;;
  print ("戦略的バイアス (大局): " ++ bias) ;;
  print RULE ;;
  st <- main_loop ta fmt exchange TIMEFRAMES main_init ;;
  print (nl ++ "--- マルチタイムフレーム分析 ---") ;;
  print (to_string (rows st)) ;;
  print (nl ++ "--- 検知されたシグナル ---") ;;
  match all_signals st with
  | _ :: _ => print_signals (all_signals st)
  | [] => print "現在、高確率なシグナルは検知されていません。"
  end ;;
  print (nl ++ RULE) ;;
  print "確認: 『トレンドはフレンド』。大局の戦略的バイアスに逆らわないようにしましょう。".

End Main.

(* ===================================================================== *)
(** * The dashboard run: the table loop of [app.py] *)
(* ===================================================================== *)

(** [app.py] hands whatever [load_data] returns to the functions of
    [analysis_logic], so here they are applied to arbitrary Python values:
    [None], a frame, a string, or a pair. *)
Module App.

Inductive PyVal : Type :=
| PyNone
| PyText (s : string)
| PyFrame (d : DataFrame)
| PyPair (a b : PyVal).

Definition of_frame (df : option DataFrame) : PyVal :=
  match df with Some d => PyFrame d | None => PyNone end.

Definition of_text (s : option string) : PyVal :=
  match s with Some t => PyText t | None => PyNone end.

Definition no_attribute (type attr : string) : PyExc :=
  AttributeError ("'" ++ type ++ "' object has no attribute '" ++ attr ++ "'").

(** [calculate_indicators(df)]: [len] of a pair is 2 and [len] of a string
    its number of characters, so either comes back as it is when short;
    a long string has no ['close'] item. *)
Definition calculate_indicators (ta : TechnicalAnalysis) (df : PyVal) : outcome PyVal :=
  match df with
  | PyNone => Returned PyNone
  | PyFrame d => Returned (of_frame (calculate_indicators ta (Some d)))
  | PyPair _ _ => Returned df
  | PyText s =>
      if (String.length s <? 200)%nat then Returned df
      else Raised (TypeError "string indices must be integers, not 'str'")
  end.

(** [analyze_trend(df, timeframe)]: after [df is None] comes [df.empty]. *)
Definition analyze_trend (df : PyVal) (timeframe : string) : outcome string :=
  match df with
  | PyNone => analyze_trend None timeframe
  | PyFrame d => analyze_trend (Some d) timeframe
  | PyPair _ _ => Raised (no_attribute "tuple" "empty")
  | PyText _ => Raised (no_attribute "str" "empty")
  end.

(** [detect_signals(df, timeframe)]: after [df is None] comes [df.iloc]. *)
Definition detect_signals (df : PyVal) (timeframe : string) : outcome (list string) :=
  match df with
  | PyNone => detect_signals None timeframe
  | PyFrame d => detect_signals (Some d) timeframe
  | PyPair _ _ => Raised (no_attribute "tuple" "iloc")
  | PyText _ => Raised (no_attribute "str" "iloc")
  end.

(** [df is not None and not df.empty]. *)
Definition present (df : PyVal) : outcome bool :=
  match df with
  | PyNone => Returned false
  | PyFrame d => Returned (negb (empty d))
  | PyPair _ _ => Raised (no_attribute "tuple" "empty")
  | PyText _ => Raised (no_attribute "str" "empty")
  end.

Record AppState : Type := mkAppState {
  dfs : list (string * PyVal);
  all_signals : list string;
  rows : list (list string)
}.

Definition app_init : AppState := mkAppState [] [] [].

(** The row of a timeframe that has no data. *)
Definition error_row (tf_key : string) : list string :=
  [tf_key; "N/A"; "Error"; "N/A"; "N/A"].

Section Run.

Variable ta : TechnicalAnalysis.
Variable fmt : Formatter.
Variable exchange : Exchange.

(** [load_data(exch_id, sym, tf, limit)] on a cold cache: the pair that
    [fetch_data] returns. *)
Definition load_data (sym tf : string) (limit : nat) : M PyVal :=
  r <- fetch_data exchange sym tf limit default_retries ;;
  ret (PyPair (of_frame (fst r)) (of_text (snd r))).

(** One turn of [for i, (tf_key, tf_val) in enumerate(tfs.items())]. *)
Definition app_turn (symbol : string) (st : AppState) (tf : string * string) : M AppState :=
  let tf_key := fst tf in
  let tf_val := snd tf in
  df <- load_data symbol tf_val LIMIT ;;
  df <- lift (calculate_indicators ta df) ;;
  let dfs' := dict_set tf_key df (dfs st) in
  trend <- lift (analyze_trend df tf_key) ;;
  signals <- lift (detect_signals df tf_key) ;;
  let all_signals' := (all_signals st ++ signals)%list in
  ok <- lift (present df) ;;
  match ok, df with
  | true, PyFrame d =>
      last_row <- lift (iloc d (-1)) ;;
      let price := row_close last_row in
      let sma200 := row_get_default last_row "SMA200" 0%float in
      let macd := row_get_default last_row "MACD" 0%float in
      ret (mkAppState dfs' all_signals'
             (rows st ++ [[tf_key; format_comma_2f fmt price; trend;
                           if negb (is_nan sma200) then format_comma_2f fmt sma200 else "N/A";
                           if negb (is_nan macd) then format_2f fmt macd else "N/A"]])%list)
  | _, _ =>
      ret (mkAppState dfs' all_signals' (rows st ++ [error_row tf_key])%list)
  end.

Fixpoint app_loop (symbol : string) (timeframes : list (string * string)) (st : AppState)
  : M AppState :=
  match timeframes with
  | [] => ret st
  | tf :: rest => st' <- app_turn symbol st tf ;; app_loop symbol rest st'
  end.

End Run.

(** [color_trend(val)]: the style of a cell of the trend column. *)
Definition color_trend (val : string) : string :=
  let color :=
    if String.eqb val "上昇トレンド" then "#90EE90"
    else if String.eqb val "下降トレンド" then "#FFB6C1"
    else "white" in
  "color: " ++ color.

End App.

(* ===================================================================== *)
(** * Notions the properties are stated with *)
(* ===================================================================== *)

(** A request fails when it raises or answers no bar. *)
Definition failed (o : outcome (list Bar)) : bool :=
  match o with
  | Raised _ => true
  | Returned [] => true
  | Returned (_ :: _) => false
  end.

(** The error description a failed request leaves in [last_error]. *)
Definition failure_text (o : outcome (list Bar)) : string :=
  match o with
  | Raised e => str_exc e
  | Returned _ => "Exchange returned 0 bars"
  end.

(** The sleep that follows the [k]-th request (counted from 1) in
    [fetch_data], by what the request answered. *)
Definition wait_after (o : outcome (list Bar)) (k : nat) : list Q :=
  match o with
  | Raised _ => [inject_Z (Z.of_nat k)]
  | Returned [] => [1%Q]
  | Returned (_ :: _) => []
  end.

(** The waits of the retry policy as the specification words it, for a run
    whose [retries] attempts all fail: [k] after attempt [k], none after
    the last. *)
Definition linear_backoff (retries : nat) : list Q :=
  map (fun k => inject_Z (Z.of_nat k)) (seq 1 (retries - 1)).

(** The line printed when turn [attempt] of [fetch_data] catches [e]. *)
Definition retry_message (timeframe : string) (retries attempt : nat) (e : PyExc) : string :=
  "Error fetching data for " ++ timeframe ++ " (Attempt "
  ++ str_nat (attempt + 1) ++ "/" ++ str_nat retries ++ "): " ++ str_exc e.

(** The world after [fetch_data]'s turn [attempt] found the exchange
    raising [e], answering nothing, or answering bars. *)
Definition after_raise (timeframe : string) (retries attempt : nat) (e : PyExc) (w : World)
  : World :=
  mkWorld (S (calls w))
    (slept w ++ [inject_Z (1 * (Z.of_nat attempt + 1))])%list
    (printed w ++ [retry_message timeframe retries attempt e])%list.

Definition after_empty (w : World) : World :=
  mkWorld (S (calls w)) (slept w ++ [1%Q])%list (printed w).

Definition after_bars (w : World) : World :=
  mkWorld (S (calls w)) (slept w) (printed w).

(** What a call of [detect_signals] emitted; a call that raises emits
    nothing. *)
Definition emitted (o : outcome (list string)) : list string :=
  match o with
  | Returned l => l
  | Raised _ => []
  end.

Inductive Direction : Type := Long | Short.

Definition direction (k : SignalKind) : Direction :=
  match k with
  | MacdGoldenCrossLow | ReturnMoveBuy => Long
  | MacdDeadCrossHigh | ReturnMoveSell => Short
  end.

(** The two alerts of one direction, and the list a call appends when the
    cross and the return move of that direction are seen. *)
Definition cross_of (side : Direction) : SignalKind :=
  match side with Long => MacdGoldenCrossLow | Short => MacdDeadCrossHigh end.

Definition return_move_of (side : Direction) : SignalKind :=
  match side with Long => ReturnMoveBuy | Short => ReturnMoveSell end.

Definition alerts (timeframe : string) (side : Direction) (cross move : bool) : list string :=
  ((if cross then [signal_message timeframe (cross_of side)] else []) ++
   (if move then [signal_message timeframe (return_move_of side)] else []))%list.

(** A derived field is unavailable at the last bar when its column is
    missing or its last cell is not a number. *)
Definition unavailable_at_last (name : string) (d : DataFrame) : bool :=
  negb (has_column name d) ||
  match iloc d (-1) with
  | Returned r =>
      match row_get r name with
      | Returned v => is_nan v
      | Raised _ => true
      end
  | Raised _ => true
  end.

(** The timeframe a row of [main]'s table is about: its first cell. *)
Definition row_label (row : list Cell) : string :=
  match row with
  | CStr s :: _ => s
  | _ => ""
  end.

(** A computation that sends the exchange [n] requests at most, and never
    takes one back, whether it returns or raises. *)
Definition requests_at_most {A} (n : nat) (c : M A) : Prop :=
  forall w, (calls w <= calls (snd (c w)) <= calls w + n)%nat.

(** A computation that returns, from every world, a value that meets
    [post]. *)
Definition returns_with {A} (post : A -> Prop) (c : M A) : Prop :=
  forall w, exists a w', c w = (Returned a, w') /\ post a.

(** A computation whose value meets [post] whenever it returns. *)
Definition ensures {A} (post : A -> Prop) (c : M A) : Prop :=
  forall w a w', c w = (Returned a, w') -> post a.

(** An exchange that never answers exactly one bar. *)
Definition never_one_bar (exchange : Exchange) : Prop :=
  forall k symbol timeframe limit b, exchange k symbol timeframe limit <> Returned [b].

(** An exchange that is out: every request raises or answers no bar. *)
Definition outage (exchange : Exchange) : Prop :=
  forall k symbol timeframe limit, failed (exchange k symbol timeframe limit) = true.

(** The pause of half a second that [main] makes between timeframes, and
    how many of them a run has made. *)
Definition is_pause (seconds : Q) : bool := Qeq_bool seconds (1 # 2).

Definition pauses (w : World) : nat := List.length (filter is_pause (slept w)).

(** A computation that has made [n] more pauses whenever it returns. *)
Definition adds_pauses {A} (n : nat) (c : M A) : Prop :=
  forall w a w', c w = (Returned a, w') -> pauses w' = (pauses w + n)%nat.

(** The line [fetch_data] prints for the answer to its turn [attempt]
    (counted from 0): one when the exchange raised, none otherwise. *)
Definition log_line (timeframe : string) (retries : nat) (o : outcome (list Bar))
    (attempt : nat) : list string :=
  match o with
  | Raised e => [retry_message timeframe retries attempt e]
  | Returned _ => []
  end.

(** [l1] is [l2] with some elements left out, the order kept. *)
Inductive subsequence {A : Type} : list A -> list A -> Prop :=
| subsequence_nil : subsequence [] []
| subsequence_skip x l1 l2 : subsequence l1 l2 -> subsequence l1 (x :: l2)
| subsequence_keep x l1 l2 : subsequence l1 l2 -> subsequence (x :: l1) (x :: l2).

(** The four emission rules of [detect_signals] on the values it reads,
    each on its own, in the order the alerts are appended. *)
Definition emission_rules (timeframe : string)
    (close ema20 macd signal hist prev_macd prev_signal prev_hist : float) : list string :=
  let near := (abs (close - ema20) / close <? NEAR)%float in
  let golden := (prev_macd <=? prev_signal)%float && (signal <? macd)%float in
  let dead := (prev_signal <=? prev_macd)%float && (macd <? signal)%float in
  let improving := (prev_hist <? hist)%float && (hist <? 0)%float in
  let deteriorating := (hist <? prev_hist)%float && (0 <? hist)%float in
  ((if (macd <? 0)%float && golden
    then [signal_message timeframe MacdGoldenCrossLow] else []) ++
   (if (macd <? 0)%float && (near && improving)
    then [signal_message timeframe ReturnMoveBuy] else []) ++
   (if (0 <? macd)%float && dead
    then [signal_message timeframe MacdDeadCrossHigh] else []) ++
   (if (0 <? macd)%float && (near && deteriorating)
    then [signal_message timeframe ReturnMoveSell] else []))%list.

(** The years whose bias is the short one. *)
Definition down_year (current_year : Z) : bool :=
  String.eqb (bias_of current_year) ShortPreferred.

(** The three styles [color_trend] gives. *)
Definition GREEN : string := "color: #90EE90".
Definition PINK : string := "color: #FFB6C1".
Definition WHITE : string := "color: white".

(** The texts [analyze_trend] can return. *)
Definition trend_texts : list string :=
  ["N/A"; "データ不足 (>200本必要)"; "データ不足"; "上昇トレンド"; "下降トレンド"; "レンジ / 中立"].

(* ===================================================================== *)
(** * Fixtures *)
(* ===================================================================== *)

(** A bar whose five prices are all [p]. *)
Definition flat_bar (t : Z) (p : float) : Bar := mkBar t p p p p p.

Definition one_bar : list Bar := [flat_bar 0 100%float].
Definition two_bars : list Bar := [flat_bar 0 100%float; flat_bar 60000 101%float].

(** No indicator is ever asked of these: every column they give is empty. *)
Definition no_ta : TechnicalAnalysis :=
  mkTA (fun _ _ => []) (fun _ _ => []) (fun _ _ _ _ => ([], [], [])).

Definition no_fmt : Formatter := mkFormatter (fun _ => "?") (fun _ => "?").

(** Two hundred bars closing at 100, one a minute. *)
Definition flat_history : list Bar :=
  map (fun k => flat_bar (Z.of_nat k * 60000) 100%float) (seq 0 200).

(** A frame of 200 bars with both long averages as columns: each is not a
    number before the last bar, where the 100-bar one is [sma100] and the
    200-bar one [sma200]. *)
Definition long_frame (sma100 sma200 : float) : DataFrame :=
  mkDataFrame flat_history
    [("SMA100", (repeat nan 199 ++ [sma100])%list);
     ("SMA200", (repeat nan 199 ++ [sma200])%list)].

(** The 200-bar average is there at the last bar, the 100-bar one is not. *)
Definition frame_sma100_nan : DataFrame := long_frame nan 90%float.

Definition frame_up : DataFrame := long_frame 95%float 90%float.

(** Two bars with the four columns [detect_signals] reads, the last cell of
    the MACD line and of the histogram being [macd] and [hist]; before it
    the line is at -1 under a signal line at -0.5, and the close of 101 is
    on its EMA20. *)
Definition macd_frame_of (macd hist : float) : DataFrame :=
  mkDataFrame two_bars
    [("EMA20", [100%float; 101%float]);
     ("MACD", [(-1)%float; macd]);
     ("MACD_Signal", [(-0.5)%float; (-0.5)%float]);
     ("MACD_Hist", [(-0.5)%float; hist])].

(** The MACD line crosses above its signal line below zero (the
    specification's scenario B). *)
Definition frame_golden_cross : DataFrame := macd_frame_of (-0.25)%float 0.25%float.

(** The MACD line is exactly zero at the last bar, right after a cross
    from below. *)
Definition frame_macd_zero : DataFrame := macd_frame_of 0%float 0.5%float.

(** Both long alerts fire: the line crosses its signal below zero next to
    the EMA20, with a histogram column still negative and rising. *)
Definition frame_cross_and_return_move : DataFrame :=
  macd_frame_of (-0.25)%float (-0.25)%float.

(** The MACD line is not a number at the last bar. *)
Definition frame_macd_nan : DataFrame := macd_frame_of nan nan.

(** Two bars with the moving average but no MACD column. *)
Definition frame_without_macd : DataFrame :=
  mkDataFrame two_bars [("EMA20", [100%float; 101%float])].

(** Exchanges for the retry loop. *)
Definition always_raises (msg : string) : Exchange :=
  fun _ _ _ _ => Raised (Exception msg).

Definition always_empty : Exchange :=
  fun _ _ _ _ => Returned [].

(** Raises on its first [n] requests and answers [bs] afterwards. *)
Definition raises_first (n : nat) (bs : list Bar) : Exchange :=
  fun k _ _ _ => if (k <? n)%nat then Raised (Exception "timeout") else Returned bs.

(** Answers nothing on its first request and [bs] afterwards. *)
Definition empty_first (bs : list Bar) : Exchange :=
  fun k _ _ _ => if (k <? 1)%nat then Returned [] else Returned bs.

(** Three bars whose last two rows are those of [macd_frame_of macd hist]. *)
Definition longer_macd_frame_of (macd hist : float) : DataFrame :=
  mkDataFrame (flat_bar (-60000) 77%float :: two_bars)
    [("EMA20", [55%float; 100%float; 101%float]);
     ("MACD", [3%float; (-1)%float; macd]);
     ("MACD_Signal", [4%float; (-0.5)%float; (-0.5)%float]);
     ("MACD_Hist", [(-1)%float; (-0.5)%float; hist])].

(** Two bars with the EMA20 and MACD columns but no signal line. *)
Definition frame_without_signal : DataFrame :=
  mkDataFrame two_bars
    [("EMA20", [100%float; 101%float]); ("MACD", [(-1)%float; (-0.25)%float])].

(** Two bars with the EMA20, MACD and signal columns but no histogram. *)
Definition frame_without_hist : DataFrame :=
  mkDataFrame two_bars
    [("EMA20", [100%float; 101%float]); ("MACD", [(-1)%float; (-0.25)%float]);
     ("MACD_Signal", [(-0.5)%float; (-0.5)%float])].

(** Indicators that give every bar the same value. *)
Definition constant_ta (v : float) : TechnicalAnalysis :=
  mkTA (fun c _ => map (fun _ => v) c) (fun c _ => map (fun _ => v) c)
       (fun c _ _ _ => (map (fun _ => v) c, map (fun _ => v) c, map (fun _ => v) c)).

(** Answers two bars from the first request on. *)
Definition always_two_bars : Exchange := fun _ _ _ _ => Returned two_bars.

(** Answers the 200-bar history from the first request on. *)
Definition always_history : Exchange := fun _ _ _ _ => Returned flat_history.

(** The last bar of [frame_up] alone, with its two averages. *)
Definition last_bar_of_frame_up : DataFrame :=
  mkDataFrame [flat_bar 11940000 100%float]
    [("SMA100", [95%float]); ("SMA200", [90%float])].

(** Indicators that put a golden cross below zero on the last bar: the
    MACD line is at -1 and ends at -0.25, the signal line stays at -0.5,
    and the averages are all 1. *)
Definition crossing_ta : TechnicalAnalysis :=
  mkTA (fun c _ => map (fun _ => 1%float) c) (fun c _ => map (fun _ => 1%float) c)
       (fun c _ _ _ =>
          ((map (fun _ => (-1)%float) (removelast c) ++ [(-0.25)%float])%list,
           (map (fun _ => (-0.5)%float) (removelast c) ++ [0.25%float])%list,
           map (fun _ => (-0.5)%float) c)).

(** The frame operations are reasoned about through their lemmas. *)
Arguments has_column : simpl never.
Arguments empty : simpl never.
Arguments iloc : simpl never.
Arguments row_get : simpl never.

(** One read of [detect_signals]: the value is named [x], and a raise or
    an early return leaves the goal to [done]. *)
Ltac read_or c x done :=
  destruct c as [x | ?]; cbn [obind emitted]; [| done].

Ltac column_or c done :=
  destruct c; cbn [negb emitted]; [| done].

(* ===================================================================== *)
(** * Facts about binary64 comparisons *)
(* ===================================================================== *)

Lemma Prim2SF_zero : Prim2SF 0%float = S754_zero false.
Proof. reflexivity. Qed.

(** A number below zero is not above zero. *)
Lemma ltb_zero_asym (x : float) : (x <? 0)%float = true -> (0 <? x)%float = false.
Proof.
  rewrite !ltb_spec, Prim2SF_zero.
  destruct (Prim2SF x) as [s | s | | s m e]; try destruct s; cbn; congruence.
Qed.

(** Zero, of either sign, is neither below nor above zero. *)
Lemma eqb_zero_not_ltb (x : float) :
  (x =? 0)%float = true -> (x <? 0)%float = false /\ (0 <? x)%float = false.
Proof.
  rewrite !ltb_spec, FloatAxioms.eqb_spec, Prim2SF_zero.
  destruct (Prim2SF x) as [s | s | | s m e]; try destruct s; cbn; intuition congruence.
Qed.

(** Only a NaN differs from itself. *)
Lemma is_nan_Prim2SF (x : float) : is_nan x = true -> Prim2SF x = S754_nan.
Proof.
  unfold is_nan. rewrite FloatAxioms.eqb_spec.
  destruct (Prim2SF x) as [s | s | | s m e]; cbn; try reflexivity.
  - discriminate.
  - destruct s; discriminate.
  - unfold SFeqb, SFcompare.
    destruct s; rewrite Z.compare_refl, Pos.compare_cont_refl; discriminate.
Qed.

(** A NaN is neither below nor above any number. *)
Lemma nan_not_ltb (x y : float) :
  is_nan x = true -> (x <? y)%float = false /\ (y <? x)%float = false.
Proof.
  intros Hnan. rewrite !ltb_spec, (is_nan_Prim2SF x Hnan).
  split; [reflexivity | destruct (Prim2SF y); reflexivity].
Qed.

(* ===================================================================== *)
(** * The cycle phase *)
(* ===================================================================== *)

Lemma cycle_position_period (y : Z) : cycle_position (y + 4) = cycle_position y.
Proof.
  unfold cycle_position.
  replace (y + 4 - CYCLE_START_YEAR) with (y - CYCLE_START_YEAR + 1 * 4) by ring.
  apply Z.mod_add. discriminate.
Qed.

Lemma cycle_position_range (y : Z) : 0 <= cycle_position y < 4.
Proof. unfold cycle_position. apply Z.mod_pos_bound. reflexivity. Qed.

Lemma cycle_position_start : cycle_position CYCLE_START_YEAR = 0.
Proof. reflexivity. Qed.

(** Away from the reference year the result is decided by the position
    alone. *)
Lemma get_anomaly_phase_by_position (y : Z) :
  y <> CYCLE_START_YEAR ->
  get_anomaly_phase y =
    if cycle_position y =? 0
    then ("下降 (調整年)", ShortPreferred)
    else ("上昇 (Year " ++ str_int (cycle_position y) ++ ")", LongPreferred).
Proof.
  intros Hy. unfold get_anomaly_phase.
  apply Z.eqb_neq in Hy. rewrite Hy.
  destruct (cycle_position y =? 0); reflexivity.
Qed.

(** C7, as the specification states it, fails at the reference year:
    2022 and 2026 get different phase labels. *)
Lemma cycle_phase_not_periodic_at_reference :
  exists y : Z, get_anomaly_phase y <> get_anomaly_phase (y + 4).
Proof. exists 2022. discriminate. Qed.

(** C7 (amended): the bias and the cycle position have period 4 in the
    year, both position-0 branches give the short bias, and the whole
    result (label and bias) has period 4 between any two years neither of
    which is the reference year 2022, whose label is its own. *)
Theorem cycle_phase_period_4 (y : Z) :
  bias_of (y + 4) = bias_of y /\
  cycle_position (y + 4) = cycle_position y /\
  (cycle_position y = 0 -> bias_of y = ShortPreferred) /\
  (y <> CYCLE_START_YEAR -> y + 4 <> CYCLE_START_YEAR ->
   get_anomaly_phase (y + 4) = get_anomaly_phase y).
Proof.
  assert (Hbias : forall z, bias_of z = if cycle_position z =? 0
                                        then ShortPreferred else LongPreferred).
  { intros z. unfold bias_of, get_anomaly_phase.
    destruct (cycle_position z =? 0), (z =? CYCLE_START_YEAR); reflexivity. }
  repeat split.
  - rewrite !Hbias, cycle_position_period. reflexivity.
  - apply cycle_position_period.
  - intros H0. rewrite Hbias, H0. reflexivity.
  - intros Hy Hy4.
    rewrite !get_anomaly_phase_by_position, cycle_position_period by assumption.
    reflexivity.
Qed.

Lemma cycle_phase_period_4_witness :
  bias_of (2026 + 4) = bias_of 2026 /\
  bias_of 2026 = ShortPreferred /\
  get_anomaly_phase (2026 + 4) = get_anomaly_phase 2026.
Proof.
  destruct (cycle_phase_period_4 2026) as (Hb & _ & Hs & Hp).
  split; [exact Hb | split].
  - apply Hs. reflexivity.
  - apply Hp; discriminate.
Defined.

(** C8, as the specification states it, fails: 2025 is at position 3 of
    the cycle that starts in 2022, not at position 1, and its label is not
    the label of position 1. *)
Lemma cycle_2025_is_not_position_1 :
  (cycle_position 2025 =? 1) = false /\
  String.eqb (phase_of 2025) "上昇 (Year 1)" = false.
Proof. split; reflexivity. Qed.

(** C8 (amended): for the year 2025 and the reference year 2022 the
    position is 3, the phase is the up-year label of position 3, and the
    bias prefers long. *)
Theorem cycle_2025_position_3 :
  CYCLE_START_YEAR = 2022 /\
  cycle_position 2025 = 3 /\
  get_anomaly_phase 2025 = ("上昇 (Year 3)", LongPreferred).
Proof. repeat split. Qed.

(* ===================================================================== *)
(** * A failed fetch through the pipeline *)
(* ===================================================================== *)

(** C10: for the absent series [None], [calculate_indicators] returns it
    unchanged, [analyze_trend] returns the not-available label ["N/A"],
    and [detect_signals] returns the empty list; none of them raises. *)
Theorem failure_propagates_degraded (ta : TechnicalAnalysis) (timeframe : string) :
  calculate_indicators ta None = None /\
  analyze_trend None timeframe = Returned "N/A" /\
  classify None timeframe = Returned (Some NotAvailable) /\
  detect_signals None timeframe = Returned [].
Proof. repeat split. Qed.

(* ===================================================================== *)
(** * The indicator step on a short history *)
(* ===================================================================== *)

Lemma calculate_indicators_short (ta : TechnicalAnalysis) (d : DataFrame) :
  (len d < 200)%nat -> calculate_indicators ta (Some d) = Some d.
Proof.
  intros Hlen. unfold calculate_indicators.
  apply Nat.ltb_lt in Hlen. rewrite Hlen. reflexivity.
Qed.

(** A frame straight from the exchange has none of the derived fields. *)
Lemma frame_of_bars_no_derived (bs : list Bar) (name : string) :
  In name derived_fields -> has_column name (frame_of_bars bs) = false.
Proof.
  unfold derived_fields. cbn [In].
  intros H; repeat (destruct H as [<- | H]; [reflexivity |]); contradiction.
Qed.

(** C3: for every bar series shorter than 200, [calculate_indicators]
    returns the frame unmodified; each derived field (SMA7/25/100/200,
    EMA20, MACD, signal, histogram) is missing from it, and it counts as
    having insufficient history (the test [analyze_trend] makes). *)
Theorem short_series_left_unmodified (ta : TechnicalAnalysis) (series : list Bar) :
  (List.length series < 200)%nat ->
  calculate_indicators ta (Some (frame_of_bars series)) = Some (frame_of_bars series) /\
  (forall name, In name derived_fields ->
     has_column name (frame_of_bars series) = false /\
     unavailable_at_last name (frame_of_bars series) = true) /\
  insufficientHistory (frame_of_bars series) = true.
Proof.
  intros Hlen. split; [| split].
  - apply calculate_indicators_short. exact Hlen.
  - intros name Hin.
    pose proof (frame_of_bars_no_derived series name Hin) as Hno.
    split; [exact Hno |].
    unfold unavailable_at_last. rewrite Hno. reflexivity.
  - reflexivity.
Qed.

Lemma short_series_left_unmodified_witness :
  calculate_indicators no_ta (Some (frame_of_bars two_bars)) = Some (frame_of_bars two_bars) /\
  has_column "SMA200" (frame_of_bars two_bars) = false /\
  insufficientHistory (frame_of_bars two_bars) = true.
Proof.
  destruct (short_series_left_unmodified no_ta two_bars) as (Hsame & Hnone & Hflag).
  - cbn. lia.
  - split; [exact Hsame | split; [| exact Hflag]].
    apply (Hnone "SMA200"). cbn. tauto.
Defined.

(* ===================================================================== *)
(** * Rows and columns *)
(* ===================================================================== *)

(** The last row of a frame that has a bar is there. *)
Lemma iloc_last_returns (d : DataFrame) :
  empty d = false -> exists r, iloc d (-1) = Returned r.
Proof.
  unfold empty, iloc, len. intros Hne. apply Nat.eqb_neq in Hne.
  cbn [Z.ltb Z.compare].
  set (n := List.length (bars d)) in *.
  assert (Hj : (Z.of_nat n + -1 <? 0) || (Z.of_nat n <=? Z.of_nat n + -1) = false).
  { apply orb_false_iff. split; [apply Z.ltb_ge | apply Z.leb_gt]; lia. }
  rewrite Hj.
  destruct (nth_error (bars d) (Z.to_nat (Z.of_nat n + -1))) as [b |] eqn:Hnth.
  - eexists. reflexivity.
  - apply nth_error_None in Hnth. fold n in Hnth. lia.
Qed.

(** [iloc] raises only the out-of-bounds error. *)
Lemma iloc_raises (d : DataFrame) (i : Z) (e : PyExc) :
  iloc d i = Raised e -> e = out_of_bounds.
Proof.
  unfold iloc.
  destruct ((_ <? 0) || _); [congruence |].
  destruct (nth_error _ _); congruence.
Qed.

(** The row before the last needs two bars. *)
Lemma iloc_prev_short (d : DataFrame) :
  (len d < 2)%nat -> iloc d (-2) = Raised out_of_bounds.
Proof.
  unfold iloc. intros Hlen. cbn [Z.ltb Z.compare].
  assert (Hj : (Z.of_nat (len d) + -2 <? 0) = true) by (apply Z.ltb_lt; lia).
  rewrite Hj. reflexivity.
Qed.

Lemma iloc_prev_returns (d : DataFrame) :
  (2 <= len d)%nat -> exists r, iloc d (-2) = Returned r.
Proof.
  unfold iloc, len. intros Hlen. cbn [Z.ltb Z.compare].
  set (n := List.length (bars d)) in *.
  assert (Hj : (Z.of_nat n + -2 <? 0) || (Z.of_nat n <=? Z.of_nat n + -2) = false).
  { apply orb_false_iff. split; [apply Z.ltb_ge | apply Z.leb_gt]; lia. }
  rewrite Hj.
  destruct (nth_error (bars d) (Z.to_nat (Z.of_nat n + -2))) as [b |] eqn:Hnth.
  - eexists. reflexivity.
  - apply nth_error_None in Hnth. fold n in Hnth. lia.
Qed.

(** The cells of a row are the derived columns of its frame. *)
Lemma iloc_row_cells (d : DataFrame) (i : Z) (r : Row) :
  iloc d i = Returned r -> map fst (row_cells r) = map fst (derived d).
Proof.
  unfold iloc.
  destruct ((_ <? 0) || _); [discriminate |].
  destruct (nth_error _ _); [| discriminate].
  intros H. injection H as <-. cbn [row_cells].
  rewrite map_map. reflexivity.
Qed.

Lemma row_get_in_cells (r : Row) (name : string) :
  existsb (String.eqb name) (map fst (row_cells r)) = true ->
  exists v, row_get r name = Returned v.
Proof.
  unfold row_get. induction (row_cells r) as [| [k v] cells IH]; cbn.
  - discriminate.
  - rewrite (String.eqb_sym k name).
    destruct (String.eqb name k); cbn.
    + intros _. eexists. reflexivity.
    + exact IH.
Qed.

Lemma row_get_not_in_cells (r : Row) (name : string) :
  existsb (String.eqb name) (map fst (row_cells r)) = false ->
  row_get r name = Raised (KeyError name).
Proof.
  unfold row_get. induction (row_cells r) as [| [k v] cells IH]; cbn.
  - reflexivity.
  - rewrite (String.eqb_sym k name).
    destruct (String.eqb name k); cbn; [discriminate | exact IH].
Qed.

(** A column of the frame that is not one of the six base columns is a
    cell of each of its rows. *)
Lemma has_column_derived (d : DataFrame) (name : string) :
  existsb (String.eqb name) base_columns = false ->
  has_column name d = existsb (String.eqb name) (map fst (derived d)).
Proof.
  intros Hbase. unfold has_column, columns.
  rewrite existsb_app, Hbase. reflexivity.
Qed.

Lemma row_get_column (d : DataFrame) (i : Z) (r : Row) (name : string) :
  existsb (String.eqb name) base_columns = false ->
  iloc d i = Returned r ->
  has_column name d = true ->
  exists v, row_get r name = Returned v.
Proof.
  intros Hbase Hrow Hcol.
  apply row_get_in_cells.
  rewrite (iloc_row_cells d i r Hrow), <- has_column_derived; assumption.
Qed.

(* ===================================================================== *)
(** * The trend label *)
(* ===================================================================== *)

(** [analyze_trend] never raises. *)
Lemma analyze_trend_returns (df : option DataFrame) (timeframe : string) :
  exists text, analyze_trend df timeframe = Returned text.
Proof.
  destruct df as [d |]; cbn; [| eexists; reflexivity].
  destruct (empty d) eqn:Hempty; [eexists; reflexivity |].
  destruct (has_column "SMA200" d) eqn:H200; cbn; [| eexists; reflexivity].
  destruct (has_column "SMA100" d) eqn:H100; cbn; [| eexists; reflexivity].
  destruct (iloc_last_returns d Hempty) as [r Hr]. rewrite Hr. cbn.
  destruct (row_get_column d (-1) r "SMA200" eq_refl Hr H200) as [s200 ->].
  destruct (row_get_column d (-1) r "SMA100" eq_refl Hr H100) as [s100 ->].
  cbn.
  destruct (is_nan s200); [eexists; reflexivity |].
  destruct (_ && _); [eexists; reflexivity |].
  destruct (_ && _); eexists; reflexivity.
Qed.

(** C2, as the specification states it, fails on a frame of 200 bars
    whose 100-bar average is not a number at the last bar while the
    200-bar one is: the frame is not empty, SMA100 is unavailable there,
    and the label is Range, not InsufficientData. *)
Lemma trend_with_sma100_unavailable_is_range :
  len frame_sma100_nan = 200%nat /\
  empty frame_sma100_nan = false /\
  unavailable_at_last "SMA100" frame_sma100_nan = true /\
  unavailable_at_last "SMA200" frame_sma100_nan = false /\
  analyze_trend (Some frame_sma100_nan) "1d" = Returned "レンジ / 中立" /\
  classify (Some frame_sma100_nan) "1d" = Returned (Some Range).
Proof. repeat split. Qed.

(** C2 (amended): an empty frame gives NotAvailable; a frame that lacks
    the SMA200 or the SMA100 column, or whose SMA200 is not a number at
    the last bar, gives InsufficientData; otherwise, with close, sma200
    and sma100 taken from the last bar, the label is Up when close exceeds
    both, Down when close is below both and Range in every other case
    (a not-a-number SMA100 included).  The call never raises. *)
Theorem analyze_trend_labels (d : DataFrame) (timeframe : string) :
  (empty d = true -> classify (Some d) timeframe = Returned (Some NotAvailable)) /\
  (empty d = false ->
   has_column "SMA200" d = false \/ has_column "SMA100" d = false ->
   classify (Some d) timeframe = Returned (Some InsufficientData)) /\
  (forall r sma200 sma100,
     empty d = false ->
     has_column "SMA200" d = true -> has_column "SMA100" d = true ->
     iloc d (-1) = Returned r ->
     row_get r "SMA200" = Returned sma200 ->
     row_get r "SMA100" = Returned sma100 ->
     classify (Some d) timeframe =
       Returned (Some
         (if is_nan sma200 then InsufficientData
          else if (sma200 <? row_close r)%float && (sma100 <? row_close r)%float then Up
          else if (row_close r <? sma200)%float && (row_close r <? sma100)%float then Down
          else Range))) /\
  returns (classify (Some d) timeframe) = true.
Proof.
  unfold classify. repeat split.
  - intros Hempty. cbn. rewrite Hempty. reflexivity.
  - intros Hempty Hmiss. cbn. rewrite Hempty.
    destruct Hmiss as [-> | ->]; cbn; [reflexivity |].
    rewrite orb_true_r. reflexivity.
  - intros r sma200 sma100 Hempty H200 H100 Hr Hs200 Hs100.
    cbn. rewrite Hempty, H200, H100. cbn. rewrite Hr. cbn.
    rewrite Hs200, Hs100. cbn.
    destruct (is_nan sma200); [reflexivity |].
    destruct (_ && _); [reflexivity |].
    destruct (_ && _); reflexivity.
  - destruct (analyze_trend_returns (Some d) timeframe) as [text ->]. reflexivity.
Qed.

Lemma analyze_trend_labels_witness :
  classify (Some (frame_of_bars [])) "1d" = Returned (Some NotAvailable) /\
  classify (Some (frame_of_bars two_bars)) "1d" = Returned (Some InsufficientData) /\
  classify (Some frame_up) "1d" = Returned (Some Up).
Proof.
  split; [| split].
  - apply (analyze_trend_labels (frame_of_bars []) "1d"). reflexivity.
  - apply (analyze_trend_labels (frame_of_bars two_bars) "1d");
      [reflexivity | left; reflexivity].
  - destruct (analyze_trend_labels frame_up "1d") as (_ & _ & Hlast & _).
    exact (Hlast (mkRow (flat_bar 11940000 100%float)
                    [("SMA100", 95%float); ("SMA200", 90%float)])
             90%float 95%float eq_refl eq_refl eq_refl eq_refl eq_refl eq_refl).
Defined.

(* ===================================================================== *)
(** * Signals *)
(* ===================================================================== *)

Lemma append_cancel_l (p a b : string) : p ++ a = p ++ b -> a = b.
Proof.
  induction p as [| c p IH]; cbn; [trivial |].
  intros H. injection H as H. exact (IH H).
Qed.

(** The alert text tells the kind of the alert. *)
Lemma signal_message_inj (timeframe : string) (k1 k2 : SignalKind) :
  signal_message timeframe k1 = signal_message timeframe k2 -> k1 = k2.
Proof.
  unfold signal_message. intros H.
  apply (append_cancel_l "[") in H.
  apply append_cancel_l in H. apply append_cancel_l in H.
  destruct k1, k2; (reflexivity || discriminate H).
Qed.

Lemma alerts_direction (timeframe : string) (side : Direction) (cross move : bool)
    (k : SignalKind) :
  In (signal_message timeframe k) (alerts timeframe side cross move) ->
  direction k = side.
Proof.
  unfold alerts. intros Hin. apply in_app_or in Hin.
  destruct Hin as [Hin | Hin]; [destruct cross | destruct move];
    cbn in Hin; try contradiction;
    destruct Hin as [Heq | []];
    apply signal_message_inj in Heq; subst k; destruct side; reflexivity.
Qed.

Lemma alerts_length (timeframe : string) (side : Direction) (cross move : bool) :
  (List.length (alerts timeframe side cross move) <= 2)%nat.
Proof. destruct cross, move; cbn; lia. Qed.

(** Whatever the frame, a call emits the alerts of one direction only. *)
Lemma detect_signals_alerts (df : option DataFrame) (timeframe : string) :
  exists side cross move,
    emitted (detect_signals df timeframe) = alerts timeframe side cross move.
Proof.
  assert (Hquiet : exists side cross move, [] = alerts timeframe side cross move)
    by (exists Long, false, false; reflexivity).
  destruct df as [d |]; [| exact Hquiet].
  unfold detect_signals.
  read_or (iloc d (-1)) last_row ltac:(exact Hquiet).
  read_or (iloc d (-2)) prev_row ltac:(exact Hquiet).
  column_or (has_column "EMA20" d) ltac:(exact Hquiet).
  read_or (row_get last_row "EMA20") ema20 ltac:(exact Hquiet).
  column_or (has_column "MACD" d) ltac:(exact Hquiet).
  read_or (row_get last_row "MACD") macd ltac:(exact Hquiet).
  read_or (row_get last_row "MACD_Signal") signal ltac:(exact Hquiet).
  read_or (row_get last_row "MACD_Hist") hist ltac:(exact Hquiet).
  read_or (row_get prev_row "MACD_Hist") prev_hist ltac:(exact Hquiet).
  read_or (row_get prev_row "MACD") prev_macd ltac:(exact Hquiet).
  read_or (row_get prev_row "MACD_Signal") prev_signal ltac:(exact Hquiet).
  set (near := (abs (row_close last_row - ema20) / row_close last_row <? NEAR)%float).
  destruct (macd <? 0)%float eqn:Hneg.
  - rewrite (ltb_zero_asym macd Hneg).
    exists Long, ((prev_macd <=? prev_signal)%float && (signal <? macd)%float),
      (near && ((prev_hist <? hist)%float && (hist <? 0)%float)).
    destruct (_ && (signal <? macd)%float), (near && _); reflexivity.
  - destruct (0 <? macd)%float; [| exact Hquiet].
    exists Short, ((prev_signal <=? prev_macd)%float && (macd <? signal)%float),
      (near && ((hist <? prev_hist)%float && (0 <? hist)%float)).
    destruct (_ && (macd <? signal)%float), (near && _); reflexivity.
Qed.

(** A MACD line that is neither below nor above zero on the last bar
    opens neither zone: nothing is emitted. *)
Lemma detect_signals_outside_zones (d : DataFrame) (timeframe : string) (r : Row)
    (macd : float) :
  iloc d (-1) = Returned r ->
  row_get r "MACD" = Returned macd ->
  (macd <? 0)%float = false -> (0 <? macd)%float = false ->
  emitted (detect_signals (Some d) timeframe) = [].
Proof.
  intros Hr Hmacd Hneg Hpos.
  unfold detect_signals. rewrite Hr. cbn [obind].
  read_or (iloc d (-2)) prev_row ltac:(reflexivity).
  column_or (has_column "EMA20" d) ltac:(reflexivity).
  read_or (row_get r "EMA20") ema20 ltac:(reflexivity).
  column_or (has_column "MACD" d) ltac:(reflexivity).
  rewrite Hmacd. cbn [obind].
  read_or (row_get r "MACD_Signal") signal ltac:(reflexivity).
  read_or (row_get r "MACD_Hist") hist ltac:(reflexivity).
  read_or (row_get prev_row "MACD_Hist") prev_hist ltac:(reflexivity).
  read_or (row_get prev_row "MACD") prev_macd ltac:(reflexivity).
  read_or (row_get prev_row "MACD_Signal") prev_signal ltac:(reflexivity).
  rewrite Hneg, Hpos. reflexivity.
Qed.

(** With the MACD line at zero on the last bar nothing is emitted. *)
Lemma detect_signals_macd_zero (d : DataFrame) (timeframe : string) (r : Row) (macd : float) :
  iloc d (-1) = Returned r ->
  row_get r "MACD" = Returned macd ->
  (macd =? 0)%float = true ->
  emitted (detect_signals (Some d) timeframe) = [].
Proof.
  intros Hr Hmacd Hzero.
  destruct (eqb_zero_not_ltb macd Hzero) as [Hneg Hpos].
  exact (detect_signals_outside_zones d timeframe r macd Hr Hmacd Hneg Hpos).
Qed.

(** With a MACD line that is not a number on the last bar nothing is
    emitted. *)
Lemma detect_signals_macd_nan (d : DataFrame) (timeframe : string) (r : Row) (macd : float) :
  iloc d (-1) = Returned r ->
  row_get r "MACD" = Returned macd ->
  is_nan macd = true ->
  emitted (detect_signals (Some d) timeframe) = [].
Proof.
  intros Hr Hmacd Hnan.
  destruct (nan_not_ltb macd 0%float Hnan) as [Hneg Hpos].
  exact (detect_signals_outside_zones d timeframe r macd Hr Hmacd Hneg Hpos).
Qed.

Lemma detect_signals_macd_nan_witness :
  emitted (detect_signals (Some frame_macd_nan) "1d") = [].
Proof.
  exact (detect_signals_macd_nan frame_macd_nan "1d"
           (mkRow (flat_bar 60000 101%float)
              [("EMA20", 101%float); ("MACD", nan);
               ("MACD_Signal", (-0.5)%float); ("MACD_Hist", nan)])
           nan eq_refl eq_refl eq_refl).
Defined.

(** The specification's scenario B: a golden cross with the line still
    below zero, away from any return move, emits that alert alone. *)
Example golden_cross_below_zero :
  detect_signals (Some frame_golden_cross) "1d" =
  Returned [signal_message "1d" MacdGoldenCrossLow].
Proof. reflexivity. Qed.

(** C9: a call of [detect_signals] emits at most two signals; any two
    signals of one call have the same direction, so a long one (golden
    cross, return-move buy) never comes with a short one (dead cross,
    return-move sell); and when the MACD line of the last bar equals zero
    nothing is emitted. *)
Theorem detect_signals_one_direction (df : option DataFrame) (timeframe : string) :
  (List.length (emitted (detect_signals df timeframe)) <= 2)%nat /\
  (forall k1 k2,
     In (signal_message timeframe k1) (emitted (detect_signals df timeframe)) ->
     In (signal_message timeframe k2) (emitted (detect_signals df timeframe)) ->
     direction k1 = direction k2) /\
  (forall d r macd,
     df = Some d -> iloc d (-1) = Returned r -> row_get r "MACD" = Returned macd ->
     (macd =? 0)%float = true ->
     emitted (detect_signals df timeframe) = []).
Proof.
  destruct (detect_signals_alerts df timeframe) as (side & cross & move & Hshape).
  rewrite Hshape. split; [| split].
  - apply alerts_length.
  - intros k1 k2 H1 H2.
    rewrite (alerts_direction _ _ _ _ _ H1), (alerts_direction _ _ _ _ _ H2).
    reflexivity.
  - intros d r macd -> Hr Hmacd Hzero.
    rewrite <- Hshape. exact (detect_signals_macd_zero d timeframe r macd Hr Hmacd Hzero).
Qed.

Lemma detect_signals_one_direction_witness :
  List.length (emitted (detect_signals (Some frame_cross_and_return_move) "1d")) = 2%nat /\
  direction MacdGoldenCrossLow = direction ReturnMoveBuy /\
  emitted (detect_signals (Some frame_macd_zero) "1d") = [].
Proof.
  split; [reflexivity | split].
  - apply (detect_signals_one_direction (Some frame_cross_and_return_move) "1d");
      vm_compute; auto.
  - destruct (detect_signals_one_direction (Some frame_macd_zero) "1d") as (_ & _ & Hzero).
    exact (Hzero frame_macd_zero
             (mkRow (flat_bar 60000 101%float)
                [("EMA20", 101%float); ("MACD", 0%float);
                 ("MACD_Signal", (-0.5)%float); ("MACD_Hist", 0.5%float)])
             0%float eq_refl eq_refl eq_refl eq_refl).
Defined.

(** With fewer than two bars the row before the last cannot be read: the
    call raises instead of returning an empty list. *)
Lemma detect_signals_short_frame_raises (d : DataFrame) (timeframe : string) :
  (len d < 2)%nat -> detect_signals (Some d) timeframe = Raised out_of_bounds.
Proof.
  intros Hlen. unfold detect_signals.
  destruct (iloc d (-1)) as [last_row | e] eqn:Hlast; cbn [obind].
  - rewrite (iloc_prev_short d Hlen). reflexivity.
  - rewrite (iloc_raises d (-1) e Hlast). reflexivity.
Qed.

(** With two bars or more, a frame that lacks the EMA20 or the MACD column
    gives the empty list. *)
Lemma detect_signals_missing_fields (d : DataFrame) (timeframe : string) :
  (2 <= len d)%nat ->
  has_column "EMA20" d = false \/ has_column "MACD" d = false ->
  detect_signals (Some d) timeframe = Returned [].
Proof.
  intros Hlen Hmiss.
  assert (Hne : empty d = false) by (unfold empty; apply Nat.eqb_neq; lia).
  destruct (iloc_last_returns d Hne) as [last_row Hlast].
  destruct (iloc_prev_returns d Hlen) as [prev_row Hprev].
  unfold detect_signals. rewrite Hlast, Hprev. cbn [obind].
  destruct (has_column "EMA20" d) eqn:Hema; cbn [negb]; [| reflexivity].
  destruct Hmiss as [Hmiss | Hmiss]; [discriminate |].
  destruct (row_get_column d (-1) last_row "EMA20" eq_refl Hlast Hema) as [ema20 ->].
  cbn [obind]. rewrite Hmiss. reflexivity.
Qed.

Lemma detect_signals_short_frame_raises_witness :
  detect_signals (Some (frame_of_bars [])) "1d" = Raised out_of_bounds.
Proof.
  apply (detect_signals_short_frame_raises (frame_of_bars []) "1d"). cbn. lia.
Defined.

Lemma detect_signals_missing_fields_witness :
  detect_signals (Some (frame_of_bars two_bars)) "1d" = Returned [] /\
  detect_signals (Some frame_without_macd) "1d" = Returned [].
Proof.
  split.
  - apply (detect_signals_missing_fields (frame_of_bars two_bars) "1d");
      [cbn; lia | left; reflexivity].
  - apply (detect_signals_missing_fields frame_without_macd "1d");
      [cbn; lia | right; reflexivity].
Defined.

(* ===================================================================== *)
(** * The retry loop *)
(* ===================================================================== *)

Lemma flat_map_seq_shift {A} (f : nat -> list A) (n : nat) :
  forall a, flat_map f (seq (S a) n) = flat_map (fun k => f (S k)) (seq a n).
Proof.
  induction n as [| n IH]; intros a; cbn [seq flat_map]; [reflexivity |].
  rewrite IH. reflexivity.
Qed.

Lemma forallb_seq_shift (f : nat -> bool) (n : nat) :
  forall a, forallb f (seq (S a) n) = forallb (fun k => f (S k)) (seq a n).
Proof.
  induction n as [| n IH]; intros a; cbn [seq forallb]; [reflexivity |].
  rewrite IH. reflexivity.
Qed.

Lemma forallb_ext {A} (f g : A -> bool) (l : list A) :
  (forall a, f a = g a) -> forallb f l = forallb g l.
Proof.
  intros Hfg. induction l as [| a l IH]; cbn; [reflexivity |].
  rewrite Hfg, IH. reflexivity.
Qed.

Section Fetch.

Variable exchange : Exchange.
Variables symbol timeframe : string.
Variables limit retries : nat.

Let answer (n : nat) : outcome (list Bar) := exchange n symbol timeframe limit.
Let loop := fetch_loop exchange symbol timeframe limit retries.

Lemma fetch_loop_step_raise remaining attempt last_error w e :
  answer (calls w) = Raised e ->
  loop (S remaining) attempt last_error w =
  loop remaining (S attempt) (str_exc e) (after_raise timeframe retries attempt e w).
Proof.
  unfold answer, loop. intros H. cbn [fetch_loop].
  unfold bind at 1. unfold try_except, bind at 1. unfold fetch_ohlcv.
  rewrite H. reflexivity.
Qed.

Lemma fetch_loop_step_empty remaining attempt last_error w :
  answer (calls w) = Returned [] ->
  loop (S remaining) attempt last_error w =
  loop remaining (S attempt) "Exchange returned 0 bars" (after_empty w).
Proof.
  unfold answer, loop. intros H. cbn [fetch_loop].
  unfold bind at 1. unfold try_except, bind at 1. unfold fetch_ohlcv.
  rewrite H. reflexivity.
Qed.

Lemma fetch_loop_step_bars remaining attempt last_error w b bs :
  answer (calls w) = Returned (b :: bs) ->
  loop (S remaining) attempt last_error w =
  (Returned (Some (frame_of_bars (b :: bs)), None), after_bars w).
Proof.
  unfold answer, loop. intros H. cbn [fetch_loop].
  unfold bind at 1. unfold try_except, bind at 1. unfold fetch_ohlcv.
  rewrite H. reflexivity.
Qed.

(** One failed turn: the next turn starts one request later, with the
    failure's text as [last_error]. *)
Lemma fetch_loop_step_failed remaining attempt last_error w :
  failed (answer (calls w)) = true ->
  exists w1,
    loop (S remaining) attempt last_error w =
    loop remaining (S attempt) (failure_text (answer (calls w))) w1 /\
    calls w1 = S (calls w) /\
    slept w1 = (slept w ++ wait_after (answer (calls w)) (attempt + 1))%list.
Proof.
  destruct (answer (calls w)) as [[| b bs] | e] eqn:Ha;
    cbn [failed failure_text wait_after]; intros Hf; try discriminate.
  - exists (after_empty w). rewrite (fetch_loop_step_empty _ _ _ _ Ha). auto.
  - exists (after_raise timeframe retries attempt e w).
    rewrite (fetch_loop_step_raise _ _ _ _ _ Ha). repeat split.
    cbn [after_raise slept]. do 3 f_equal. lia.
Qed.

(** The loop always returns, whatever the exchange does. *)
Lemma fetch_loop_returns remaining :
  forall attempt last_error w,
  exists r w', loop remaining attempt last_error w = (Returned r, w').
Proof.
  induction remaining as [| remaining IH]; intros attempt last_error w.
  - do 2 eexists. reflexivity.
  - destruct (answer (calls w)) as [[| b bs] | e] eqn:Ha.
    + rewrite (fetch_loop_step_empty _ _ _ _ Ha). apply IH.
    + rewrite (fetch_loop_step_bars _ _ _ _ _ _ Ha). do 2 eexists. reflexivity.
    + rewrite (fetch_loop_step_raise _ _ _ _ _ Ha). apply IH.
Qed.

(** When every remaining turn fails, all of them are used and the last
    failure is reported. *)
Lemma fetch_loop_all_failed remaining :
  forall attempt last_error w,
  (forall k, (k < remaining)%nat -> failed (answer (calls w + k)) = true) ->
  exists w',
    loop remaining attempt last_error w =
    (Returned (None,
               Some (match remaining with
                     | O => last_error
                     | S n => failure_text (answer (calls w + n))
                     end)), w') /\
    calls w' = (calls w + remaining)%nat.
Proof.
  induction remaining as [| remaining IH]; intros attempt last_error w Hall.
  - exists w. split; [reflexivity | lia].
  - assert (H0 : failed (answer (calls w)) = true).
    { rewrite <- (Nat.add_0_r (calls w)). apply Hall. lia. }
    destruct (fetch_loop_step_failed remaining attempt last_error w H0)
      as (w1 & Hstep & Hcalls & _).
    rewrite Hstep.
    destruct (IH (S attempt) (failure_text (answer (calls w))) w1) as (w' & Hrun & Hc).
    { intros k Hk. rewrite Hcalls.
      replace (S (calls w) + k)%nat with (calls w + S k)%nat by lia.
      apply Hall. lia. }
    exists w'. rewrite Hrun, Hc, Hcalls. split; [| lia].
    destruct remaining as [| n].
    + rewrite Nat.add_0_r. reflexivity.
    + replace (S (calls w) + n)%nat with (calls w + S n)%nat by lia. reflexivity.
Qed.

(** When the turns fail up to the last one, which gets bars, the frame
    of those bars is returned. *)
Lemma fetch_loop_last_succeeds remaining :
  forall attempt last_error w b bs,
  (forall k, (k < remaining)%nat -> failed (answer (calls w + k)) = true) ->
  answer (calls w + remaining) = Returned (b :: bs) ->
  exists w',
    loop (S remaining) attempt last_error w =
    (Returned (Some (frame_of_bars (b :: bs)), None), w') /\
    calls w' = (calls w + S remaining)%nat.
Proof.
  induction remaining as [| remaining IH]; intros attempt last_error w b bs Hall Hlast.
  - rewrite Nat.add_0_r in Hlast.
    rewrite (fetch_loop_step_bars _ _ _ _ _ _ Hlast).
    eexists. split; [reflexivity | cbn; lia].
  - assert (H0 : failed (answer (calls w)) = true).
    { rewrite <- (Nat.add_0_r (calls w)). apply Hall. lia. }
    destruct (fetch_loop_step_failed (S remaining) attempt last_error w H0)
      as (w1 & Hstep & Hcalls & _).
    rewrite Hstep.
    destruct (IH (S attempt) (failure_text (answer (calls w))) w1 b bs) as (w' & Hrun & Hc).
    { intros k Hk. rewrite Hcalls.
      replace (S (calls w) + k)%nat with (calls w + S k)%nat by lia.
      apply Hall. lia. }
    { rewrite Hcalls.
      replace (S (calls w) + remaining)%nat with (calls w + S remaining)%nat by lia.
      exact Hlast. }
    exists w'. rewrite Hrun, Hc, Hcalls. split; [reflexivity | lia].
Qed.

(** The sleeps of a run of the loop: one after each request that failed,
    as long as the request's turn number when it raised and one second
    when it answered nothing.  Every request but the last one made has
    failed. *)
Lemma fetch_loop_slept remaining :
  forall attempt last_error w,
  exists n,
    (n <= remaining)%nat /\
    calls (snd (loop remaining attempt last_error w)) = (calls w + n)%nat /\
    forallb (fun k => failed (answer (calls w + k))) (seq 0 (n - 1)) = true /\
    slept (snd (loop remaining attempt last_error w)) =
      (slept w ++
       flat_map (fun k => wait_after (answer (calls w + k)) (attempt + k + 1)) (seq 0 n))%list.
Proof.
  induction remaining as [| remaining IH]; intros attempt last_error w.
  - exists 0%nat. cbn. rewrite app_nil_r. repeat split; lia.
  - destruct (failed (answer (calls w))) eqn:Hf.
    + destruct (fetch_loop_step_failed remaining attempt last_error w Hf)
        as (w1 & Hstep & Hcalls & Hslept).
      rewrite Hstep.
      destruct (IH (S attempt) (failure_text (answer (calls w))) w1)
        as (n & Hn & Hc & Hprev & Hs).
      exists (S n). split; [lia |]. rewrite Hc, Hs, Hcalls, Hslept.
      split; [lia | split].
      * destruct n as [| m]; [reflexivity |].
        replace (S (S m) - 1)%nat with (S m) by lia.
        replace (S m - 1)%nat with m in Hprev by lia.
        cbn [seq forallb]. rewrite Nat.add_0_r, Hf, forallb_seq_shift.
        cbn [andb]. rewrite <- Hprev. apply forallb_ext. intros k.
        rewrite Hcalls.
        replace (S (calls w) + k)%nat with (calls w + S k)%nat by lia.
        reflexivity.
      * cbn [seq flat_map]. rewrite Nat.add_0_r, <- app_assoc. f_equal. f_equal.
        -- f_equal. lia.
        -- rewrite flat_map_seq_shift.
           apply flat_map_ext. intros k.
           replace (S (calls w) + k)%nat with (calls w + S k)%nat by lia.
           replace (S attempt + k + 1)%nat with (attempt + S k + 1)%nat by lia.
           reflexivity.
    + destruct (answer (calls w)) as [[| b bs] | e] eqn:Ha; try discriminate.
      rewrite (fetch_loop_step_bars _ _ _ _ _ _ Ha).
      exists 1%nat. cbn. rewrite Nat.add_0_r, Ha. cbn. rewrite app_nil_r.
      repeat split; lia.
Qed.

End Fetch.

(** C5: with at least one try allowed, [fetch_data] never raises; when
    every one of the [retries] requests fails (the exchange raises or
    answers no bar) it makes exactly [retries] requests and returns no
    frame together with the text of the last failure; and when the first
    [retries - 1] requests fail and the last one answers bars it returns,
    with no error, a frame whose bars are exactly the bars answered and
    which has no derived column. *)
Theorem fetch_data_retries (exchange : Exchange) (symbol timeframe : string)
    (limit retries : nat) (w : World) :
  (1 <= retries)%nat ->
  returns (fst (fetch_data exchange symbol timeframe limit retries w)) = true /\
  ((forall k, (k < retries)%nat ->
      failed (exchange (calls w + k)%nat symbol timeframe limit) = true) ->
   fst (fetch_data exchange symbol timeframe limit retries w) =
     Returned (None,
               Some (failure_text
                       (exchange (calls w + (retries - 1))%nat symbol timeframe limit))) /\
   calls (snd (fetch_data exchange symbol timeframe limit retries w)) =
     (calls w + retries)%nat) /\
  (forall b bs,
     (forall k, (k < retries - 1)%nat ->
        failed (exchange (calls w + k)%nat symbol timeframe limit) = true) ->
     exchange (calls w + (retries - 1))%nat symbol timeframe limit = Returned (b :: bs) ->
     exists d,
       fst (fetch_data exchange symbol timeframe limit retries w) =
         Returned (Some d, None) /\
       bars d = b :: bs /\
       derived d = [] /\
       calls (snd (fetch_data exchange symbol timeframe limit retries w)) =
         (calls w + retries)%nat).
Proof.
  intros Hretries. unfold fetch_data.
  destruct retries as [| n]; [lia |].
  replace (S n - 1)%nat with n by lia.
  split; [| split].
  - destruct (fetch_loop_returns exchange symbol timeframe limit (S n) (S n)
                0%nat "Unknown error" w) as (r & w' & ->).
    reflexivity.
  - intros Hall.
    destruct (fetch_loop_all_failed exchange symbol timeframe limit (S n) (S n)
                0%nat "Unknown error" w Hall) as (w' & -> & Hcalls).
    split; [reflexivity | exact Hcalls].
  - intros b bs Hall Hlast.
    destruct (fetch_loop_last_succeeds exchange symbol timeframe limit (S n) n
                0%nat "Unknown error" w b bs Hall Hlast) as (w' & -> & Hcalls).
    exists (frame_of_bars (b :: bs)).
    split; [reflexivity | split; [reflexivity | split; [reflexivity | exact Hcalls]]].
Qed.

Lemma fetch_data_retries_witness :
  fst (fetch_data (always_raises "boom") SYMBOL "1d" LIMIT 3 start) =
    Returned (None, Some "boom") /\
  calls (snd (fetch_data (always_raises "boom") SYMBOL "1d" LIMIT 3 start)) = 3%nat /\
  exists d,
    fst (fetch_data (raises_first 2 two_bars) SYMBOL "1d" LIMIT 3 start) =
      Returned (Some d, None) /\
    bars d = [flat_bar 0 100%float; flat_bar 60000 101%float] /\
    derived d = [] /\
    calls (snd (fetch_data (raises_first 2 two_bars) SYMBOL "1d" LIMIT 3 start)) = 3%nat.
Proof.
  assert (H3 : (1 <= 3)%nat) by lia.
  destruct (fetch_data_retries (always_raises "boom") SYMBOL "1d" LIMIT 3 start H3)
    as (_ & Hfail & _).
  destruct (fetch_data_retries (raises_first 2 two_bars) SYMBOL "1d" LIMIT 3 start H3)
    as (_ & _ & Hlast).
  split; [| split].
  - apply Hfail. intros k _. reflexivity.
  - apply Hfail. intros k _. reflexivity.
  - apply (Hlast (flat_bar 0 100%float) [flat_bar 60000 101%float]); [| reflexivity].
    intros k Hk. cbn in Hk.
    destruct k as [| [| k]]; [reflexivity | reflexivity | lia].
Defined.

(** C6, as the specification states it, fails: with three tries against
    an exchange that always raises, the sleeps are 1, 2 and 3, so there is
    a wait after the final attempt, where the stated policy has 1 and 2
    only; and against an exchange that always answers no bar the sleeps
    are 1, 1 and 1, not 1 and 2. *)
Lemma fetch_data_waits_differ_from_linear_backoff :
  slept (snd (fetch_data (always_raises "boom") SYMBOL "1d" LIMIT 3 start)) =
    [1%Q; 2%Q; 3%Q] /\
  slept (snd (fetch_data always_empty SYMBOL "1d" LIMIT 3 start)) = [1%Q; 1%Q; 1%Q] /\
  linear_backoff 3 = [1%Q; 2%Q].
Proof. repeat split. Qed.

(** C6 (amended): [fetch_data] makes [n] requests, [n] at most [retries],
    of which all but the last have failed, and it sleeps once after each
    failing one, the final one included: after the [k]-th request (counted
    from 1) it waits [k] seconds when the exchange raised and 1 second
    when the exchange answered no bar, which counts as a failure to retry;
    a request that got bars is followed by no wait. *)
Theorem fetch_data_waits (exchange : Exchange) (symbol timeframe : string)
    (limit retries : nat) (w : World) :
  exists n,
    (n <= retries)%nat /\
    calls (snd (fetch_data exchange symbol timeframe limit retries w)) = (calls w + n)%nat /\
    forallb (fun k => failed (exchange (calls w + k)%nat symbol timeframe limit))
            (seq 0 (n - 1)) = true /\
    slept (snd (fetch_data exchange symbol timeframe limit retries w)) =
      (slept w ++
       flat_map (fun k => wait_after (exchange (calls w + k)%nat symbol timeframe limit) (k + 1))
                (seq 0 n))%list.
Proof.
  unfold fetch_data.
  destruct (fetch_loop_slept exchange symbol timeframe limit retries retries
              0%nat "Unknown error" w) as (n & Hn & Hcalls & Hprev & Hslept).
  exists n. split; [exact Hn | split; [exact Hcalls | split; [exact Hprev |]]].
  rewrite Hslept. reflexivity.
Qed.

(** An empty answer is retried, it is not returned as an empty frame. *)
Lemma fetch_data_retries_empty_answer :
  fetch_data (empty_first two_bars) SYMBOL "1d" LIMIT 3 start =
  (Returned (Some (frame_of_bars two_bars), None), mkWorld 2 [1%Q] []).
Proof. reflexivity. Qed.

(* ===================================================================== *)
(** * A frame of one bar *)
(* ===================================================================== *)

(** C1 fails on the code: a frame of a single bar, which [fetch_data]
    returns when the exchange has one bar only, makes [detect_signals]
    raise [IndexError] where the claim promises the empty list, and the
    exception ends the run of [main]. *)
Theorem detect_signals_single_bar_raises :
  len (frame_of_bars one_bar) = 1%nat /\
  fst (fetch_data (raises_first 0 one_bar) SYMBOL "1M" LIMIT 3 start) =
    Returned (Some (frame_of_bars one_bar), None) /\
  detect_signals (Some (frame_of_bars one_bar)) "1M" = Raised out_of_bounds /\
  fst (main_loop no_ta no_fmt (raises_first 0 one_bar) TIMEFRAMES main_init start) =
    Raised out_of_bounds.
Proof. repeat split. Qed.

(* ===================================================================== *)
(** * The summary table *)
(* ===================================================================== *)

(** A timeframe whose fetch fails adds no row in [main]: the state of the
    loop is the one before the turn. *)
Lemma main_turn_failed_fetch (ta : TechnicalAnalysis) (fmt : Formatter) (exchange : Exchange)
    (st : MainState) (tf : string * string) (w : World) :
  (forall k, (k < default_retries)%nat ->
     failed (exchange (calls w + k)%nat SYMBOL (snd tf) LIMIT) = true) ->
  fst (main_turn ta fmt exchange st tf w) = Returned st.
Proof.
  intros Hall.
  unfold main_turn, fetch_data.
  unfold bind at 1. cbn [print].
  unfold bind at 1.
  destruct (fetch_loop_all_failed exchange SYMBOL (snd tf) LIMIT default_retries
              default_retries 0%nat "Unknown error"
              (mkWorld (calls w) (slept w)
                 (printed w ++ [String.append (fst tf) "のデータを取得中..."])%list) Hall)
    as (w' & Hrun & _).
  rewrite Hrun. reflexivity.
Qed.

Lemma main_turn_failed_fetch_witness :
  fst (main_turn no_ta no_fmt (always_raises "boom") main_init ("1M", "1M") start) =
    Returned main_init.
Proof.
  apply (main_turn_failed_fetch no_ta no_fmt (always_raises "boom") main_init ("1M", "1M") start).
  intros k _. reflexivity.
Defined.

(** C4 fails on the code of [main]: when the exchange fails on the three
    tries of the first timeframe and answers two bars afterwards, the run
    goes on and returns, but the table has four rows for five configured
    timeframes, none of them for ["1M"], whose failure is only printed. *)
Theorem main_omits_failed_timeframe (ta : TechnicalAnalysis) (fmt : Formatter) :
  exists st w,
    main_loop ta fmt (raises_first 3 two_bars) TIMEFRAMES main_init start = (Returned st, w) /\
    List.length TIMEFRAMES = 5%nat /\
    List.length (rows st) = 4%nat /\
    map row_label (rows st) = ["1w"; "1d"; "4h"; "1h"] /\
    In "Error fetching 1M: timeout" (printed w).
Proof.
  destruct (main_loop ta fmt (raises_first 3 two_bars) TIMEFRAMES main_init start)
    as [o w] eqn:Hrun.
  vm_compute in Hrun. injection Hrun as <- <-.
  do 2 eexists. split; [reflexivity |].
  vm_compute. repeat split. auto 10.
Qed.

(** The table loop of [app.py] gives the pair that [fetch_data] returns to
    [analyze_trend], which looks for its [empty] attribute: whatever the
    exchange answers, the first turn raises and no row is ever written. *)
Lemma app_loop_raises (ta : TechnicalAnalysis) (fmt : Formatter) (exchange : Exchange)
    (symbol : string) (tf : string * string) (rest : list (string * string))
    (st : App.AppState) (w : World) :
  fst (App.app_loop ta fmt exchange symbol (tf :: rest) st w) =
    Raised (App.no_attribute "tuple" "empty").
Proof.
  cbn [App.app_loop]. unfold bind at 1. unfold App.app_turn.
  unfold bind at 1. unfold App.load_data. unfold bind at 1.
  destruct (fetch_loop_returns exchange symbol (snd tf) LIMIT default_retries
              default_retries 0%nat "Unknown error" w) as (r & w' & Hrun).
  unfold fetch_data. rewrite Hrun. reflexivity.
Qed.

(* ===================================================================== *)
(** * The rule of the cycle: three years up, one year down *)
(* ===================================================================== *)

Lemma bias_of_by_position (y : Z) :
  bias_of y = if cycle_position y =? 0 then ShortPreferred else LongPreferred.
Proof.
  unfold bias_of, get_anomaly_phase.
  destruct (cycle_position y =? 0), (y =? CYCLE_START_YEAR); reflexivity.
Qed.

Lemma down_year_by_position (y : Z) : down_year y = (cycle_position y =? 0).
Proof.
  unfold down_year. rewrite bias_of_by_position.
  destruct (cycle_position y =? 0); reflexivity.
Qed.

Lemma cycle_position_shift (y i : Z) :
  cycle_position (y + i) = (cycle_position y + i) mod 4.
Proof.
  unfold cycle_position.
  replace (y + i - CYCLE_START_YEAR) with (y - CYCLE_START_YEAR + i) by ring.
  rewrite Z.add_mod_idemp_l by discriminate. reflexivity.
Qed.

(** Of any four years in a row exactly one is a down year (short bias),
    the three others are up years (long bias); this holds before the
    reference year too, and the down years are those that leave 2 when
    divided by 4. *)
Theorem one_down_year_in_four (y : Z) :
  List.length (filter down_year [y; y + 1; y + 2; y + 3]) = 1%nat /\
  (forall z, bias_of z = if down_year z then ShortPreferred else LongPreferred) /\
  down_year y = (y mod 4 =? 2).
Proof.
  split; [| split].
  - cbn [filter]. rewrite !down_year_by_position, !cycle_position_shift.
    pose proof (cycle_position_range y) as Hr.
    assert (Hcases : cycle_position y = 0 \/ cycle_position y = 1 \/
                     cycle_position y = 2 \/ cycle_position y = 3) by lia.
    destruct Hcases as [-> | [-> | [-> | ->]]]; reflexivity.
  - intros z. rewrite down_year_by_position, bias_of_by_position.
    destruct (cycle_position z =? 0); reflexivity.
  - rewrite down_year_by_position. unfold cycle_position, CYCLE_START_YEAR.
    replace (y - 2022) with (y + 2 + (-506) * 4) by ring.
    rewrite Z.mod_add by discriminate.
    rewrite <- Z.add_mod_idemp_l by discriminate.
    pose proof (Z.mod_pos_bound y 4 eq_refl) as Hm.
    assert (Hcases : y mod 4 = 0 \/ y mod 4 = 1 \/ y mod 4 = 2 \/ y mod 4 = 3) by lia.
    destruct Hcases as [-> | [-> | [-> | ->]]]; reflexivity.
Qed.

(* ===================================================================== *)
(** * What the retry loop hands back *)
(* ===================================================================== *)

Section FetchResult.

Variable exchange : Exchange.
Variables symbol timeframe : string.
Variables limit retries : nat.

Let answer (n : nat) : outcome (list Bar) := exchange n symbol timeframe limit.
Let loop := fetch_loop exchange symbol timeframe limit retries.

(** The loop stops at the first request that gets bars. *)
Lemma fetch_loop_first_success k :
  forall remaining attempt last_error w b bs,
  (k < remaining)%nat ->
  (forall j, (j < k)%nat -> failed (answer (calls w + j)) = true) ->
  answer (calls w + k) = Returned (b :: bs) ->
  exists w',
    loop remaining attempt last_error w =
    (Returned (Some (frame_of_bars (b :: bs)), None), w') /\
    calls w' = (calls w + S k)%nat.
Proof.
  induction k as [| k IH]; intros remaining attempt last_error w b bs Hk Hall Hok;
    (destruct remaining as [| remaining]; [lia |]).
  - rewrite Nat.add_0_r in Hok.
    unfold loop, answer in *.
    rewrite (fetch_loop_step_bars _ _ _ _ _ _ _ _ _ _ _ Hok).
    eexists. split; [reflexivity | cbn; lia].
  - assert (H0 : failed (answer (calls w)) = true).
    { rewrite <- (Nat.add_0_r (calls w)). apply Hall. lia. }
    unfold loop, answer in *.
    destruct (fetch_loop_step_failed exchange symbol timeframe limit retries
                remaining attempt last_error w H0) as (w1 & Hstep & Hcalls & _).
    rewrite Hstep.
    destruct (IH remaining (S attempt)
                (failure_text (exchange (calls w) symbol timeframe limit)) w1 b bs)
      as (w' & Hrun & Hc).
    + lia.
    + intros j Hj. rewrite Hcalls.
      replace (S (calls w) + j)%nat with (calls w + S j)%nat by lia.
      apply Hall. lia.
    + rewrite Hcalls.
      replace (S (calls w) + k)%nat with (calls w + S k)%nat by lia. exact Hok.
    + exists w'. rewrite Hrun, Hc, Hcalls. split; [reflexivity | lia].
Qed.

(** Either some request got bars, and the frame of the first such answer
    is returned, or all of them failed. *)
Lemma fetch_loop_result remaining :
  forall attempt last_error w,
  (exists b bs k w',
     loop remaining attempt last_error w =
       (Returned (Some (frame_of_bars (b :: bs)), None), w') /\
     (k < remaining)%nat /\
     answer (calls w + k) = Returned (b :: bs) /\
     calls w' = (calls w + S k)%nat) \/
  (exists msg w',
     loop remaining attempt last_error w = (Returned (None, Some msg), w') /\
     calls w' = (calls w + remaining)%nat).
Proof.
  induction remaining as [| remaining IH]; intros attempt last_error w.
  - right. exists last_error, w. split; [reflexivity | lia].
  - destruct (answer (calls w)) as [[| b bs] | e] eqn:Ha.
    + assert (Hf : failed (answer (calls w)) = true) by (rewrite Ha; reflexivity).
      unfold loop, answer in *.
      destruct (fetch_loop_step_failed exchange symbol timeframe limit retries
                  remaining attempt last_error w Hf) as (w1 & Hstep & Hcalls & _).
      rewrite Hstep.
      destruct (IH (S attempt) (failure_text (exchange (calls w) symbol timeframe limit)) w1)
        as [(b & bs & k & w' & Hrun & Hk & Hans & Hc) | (msg & w' & Hrun & Hc)].
      * left. exists b, bs, (S k), w'. rewrite Hrun.
        split; [reflexivity | split; [lia | split; [| lia]]].
        rewrite Hcalls in Hans.
        replace (calls w + S k)%nat with (S (calls w) + k)%nat by lia. exact Hans.
      * right. exists msg, w'. rewrite Hrun. split; [reflexivity | lia].
    + left. exists b, bs, 0%nat, (after_bars w).
      unfold loop, answer in *.
      rewrite (fetch_loop_step_bars _ _ _ _ _ _ _ _ _ _ _ Ha).
      rewrite Nat.add_0_r.
      split; [reflexivity | split; [lia | split; [exact Ha | cbn; lia]]].
    + assert (Hf : failed (answer (calls w)) = true) by (rewrite Ha; reflexivity).
      unfold loop, answer in *.
      destruct (fetch_loop_step_failed exchange symbol timeframe limit retries
                  remaining attempt last_error w Hf) as (w1 & Hstep & Hcalls & _).
      rewrite Hstep.
      destruct (IH (S attempt) (failure_text (exchange (calls w) symbol timeframe limit)) w1)
        as [(b & bs & k & w' & Hrun & Hk & Hans & Hc) | (msg & w' & Hrun & Hc)].
      * left. exists b, bs, (S k), w'. rewrite Hrun.
        split; [reflexivity | split; [lia | split; [| lia]]].
        rewrite Hcalls in Hans.
        replace (calls w + S k)%nat with (S (calls w) + k)%nat by lia. exact Hans.
      * right. exists msg, w'. rewrite Hrun. split; [reflexivity | lia].
Qed.

End FetchResult.

(** [fetch_data] stops at the first request that gets bars: when the
    first [k] requests fail and request [k + 1], one of the [retries]
    allowed, answers bars, a frame is returned with no error, after
    exactly [k + 1] requests; its bars are exactly the bars answered and
    it has no derived column (it is the frame [fetch_data] builds of
    them). *)
Theorem fetch_data_stops_at_first_success (exchange : Exchange) (symbol timeframe : string)
    (limit retries : nat) (w : World) (k : nat) (b : Bar) (bs : list Bar) :
  (k < retries)%nat ->
  (forall j, (j < k)%nat ->
     failed (exchange (calls w + j)%nat symbol timeframe limit) = true) ->
  exchange (calls w + k)%nat symbol timeframe limit = Returned (b :: bs) ->
  exists d,
    fst (fetch_data exchange symbol timeframe limit retries w) = Returned (Some d, None) /\
    d = frame_of_bars (b :: bs) /\
    bars d = b :: bs /\
    derived d = [] /\
    calls (snd (fetch_data exchange symbol timeframe limit retries w)) = (calls w + S k)%nat.
Proof.
  intros Hk Hall Hok. unfold fetch_data.
  destruct (fetch_loop_first_success exchange symbol timeframe limit retries k retries
              0%nat "Unknown error" w b bs Hk Hall Hok) as (w' & -> & Hcalls).
  exists (frame_of_bars (b :: bs)).
  split; [reflexivity | split; [reflexivity | split; [reflexivity |]]].
  split; [reflexivity | exact Hcalls].
Qed.

Lemma fetch_data_stops_at_first_success_witness :
  exists d,
    fst (fetch_data (raises_first 1 two_bars) SYMBOL "4h" LIMIT 3 start) =
      Returned (Some d, None) /\
    d = frame_of_bars [flat_bar 0 100%float; flat_bar 60000 101%float] /\
    bars d = [flat_bar 0 100%float; flat_bar 60000 101%float] /\
    derived d = [] /\
    calls (snd (fetch_data (raises_first 1 two_bars) SYMBOL "4h" LIMIT 3 start)) = 2%nat.
Proof.
  apply (fetch_data_stops_at_first_success (raises_first 1 two_bars) SYMBOL "4h" LIMIT 3
           start 1 (flat_bar 0 100%float) [flat_bar 60000 101%float]).
  - lia.
  - intros j Hj. destruct j as [| j]; [reflexivity | lia].
  - reflexivity.
Defined.

(** [fetch_data] returns one of two shapes, whatever the exchange does:
    a frame with no error, the frame being the bars (one at least, base
    columns only) that the last request made was answered; or no frame
    with an error text, after exactly [retries] requests. *)
Theorem fetch_data_result_shape (exchange : Exchange) (symbol timeframe : string)
    (limit retries : nat) (w : World) :
  (exists d b bs k,
     fst (fetch_data exchange symbol timeframe limit retries w) =
       Returned (Some d, None) /\
     d = frame_of_bars (b :: bs) /\
     bars d = b :: bs /\
     derived d = [] /\
     (k < retries)%nat /\
     exchange (calls w + k)%nat symbol timeframe limit = Returned (b :: bs) /\
     calls (snd (fetch_data exchange symbol timeframe limit retries w)) =
       (calls w + S k)%nat) \/
  (exists msg,
     fst (fetch_data exchange symbol timeframe limit retries w) =
       Returned (None, Some msg) /\
     calls (snd (fetch_data exchange symbol timeframe limit retries w)) =
       (calls w + retries)%nat).
Proof.
  unfold fetch_data.
  destruct (fetch_loop_result exchange symbol timeframe limit retries retries
              0%nat "Unknown error" w)
    as [(b & bs & k & w' & -> & Hk & Hans & Hc) | (msg & w' & -> & Hc)].
  - left. exists (frame_of_bars (b :: bs)), b, bs, k.
    repeat (split; [reflexivity |]). auto.
  - right. exists msg. auto.
Qed.

(* ===================================================================== *)
(** * Counting the requests *)
(* ===================================================================== *)

Lemma requests_ret {A} (a : A) : requests_at_most 0 (ret a).
Proof. intros w. cbn. lia. Qed.

Lemma requests_lift {A} (o : outcome A) : requests_at_most 0 (lift o).
Proof. intros w. cbn. lia. Qed.

Lemma requests_print (line : string) : requests_at_most 0 (print line).
Proof. intros w. cbn. lia. Qed.

Lemma requests_sleep (seconds : Q) : requests_at_most 0 (sleep seconds).
Proof. intros w. cbn. lia. Qed.

Lemma requests_bind {A B} (n m : nat) (c : M A) (k : A -> M B) :
  requests_at_most n c -> (forall a, requests_at_most m (k a)) ->
  requests_at_most (n + m) (bind c k).
Proof.
  intros Hc Hk w. unfold bind.
  specialize (Hc w). destruct (c w) as [[a | e] w1]; cbn [snd] in *.
  - specialize (Hk a w1). lia.
  - lia.
Qed.

Lemma requests_weaken {A} (n m : nat) (c : M A) :
  (n <= m)%nat -> requests_at_most n c -> requests_at_most m c.
Proof. intros Hnm Hc w. specialize (Hc w). lia. Qed.

Lemma requests_fetch_data (exchange : Exchange) (symbol timeframe : string)
    (limit retries : nat) :
  requests_at_most retries (fetch_data exchange symbol timeframe limit retries).
Proof.
  intros w. unfold fetch_data.
  destruct (fetch_loop_slept exchange symbol timeframe limit retries retries
              0%nat "Unknown error" w) as (n & Hn & Hcalls & _).
  rewrite Hcalls. lia.
Qed.

(** Reads the bound of a computation built from the monad's operations. *)
Ltac count_requests :=
  repeat first
    [ apply requests_ret | apply requests_lift | apply requests_print
    | apply requests_sleep | apply requests_fetch_data
    | apply (requests_bind 0 0) | intro ].

Lemma requests_main_turn (ta : TechnicalAnalysis) (fmt : Formatter) (exchange : Exchange)
    (st : MainState) (tf : string * string) :
  requests_at_most 3 (main_turn ta fmt exchange st tf).
Proof.
  unfold main_turn.
  apply (requests_bind 0 3); [apply requests_print | intros _].
  apply (requests_bind 3 0); [apply requests_fetch_data | intros r].
  apply (requests_bind 0 0); [| count_requests].
  destruct (fst r) as [d0 |]; [| count_requests].
  apply (requests_bind 0 0); [apply requests_lift | intros trend].
  apply (requests_bind 0 0); [apply requests_lift | intros signals].
  destruct (calculate_indicators ta (Some d0)); count_requests.
Qed.

Lemma requests_main_loop (ta : TechnicalAnalysis) (fmt : Formatter) (exchange : Exchange)
    (timeframes : list (string * string)) :
  forall st, requests_at_most (3 * List.length timeframes)
               (main_loop ta fmt exchange timeframes st).
Proof.
  induction timeframes as [| tf rest IH]; intros st.
  - apply requests_ret.
  - cbn [main_loop List.length].
    replace (3 * S (List.length rest))%nat with (3 + 3 * List.length rest)%nat by lia.
    apply requests_bind; [apply requests_main_turn | exact IH].
Qed.

Lemma requests_print_signals (signals : list string) :
  requests_at_most 0 (print_signals signals).
Proof.
  induction signals as [| sig rest IH]; cbn [print_signals].
  - apply requests_ret.
  - apply (requests_bind 0 0); [apply requests_print | intros _; exact IH].
Qed.

(** A run sends the exchange at most three requests per timeframe, in the
    loop of [main] over any table and in [main] as a whole (fifteen for
    the five configured timeframes), whether the run returns or raises. *)
Theorem main_request_bound (ta : TechnicalAnalysis) (fmt : Formatter) (exchange : Exchange)
    (to_string : list (list Cell) -> string) (timeframes : list (string * string))
    (st : MainState) (current_year : Z) :
  requests_at_most (3 * List.length timeframes) (main_loop ta fmt exchange timeframes st) /\
  requests_at_most 15 (main ta fmt exchange to_string current_year).
Proof.
  split; [apply requests_main_loop |].
  unfold main.
  do 5 (apply (requests_bind 0 15); [apply requests_print | intros _]).
  apply (requests_bind 15 0); [apply (requests_main_loop ta fmt exchange TIMEFRAMES) |].
  intros st'.
  do 3 (apply (requests_bind 0 0); [apply requests_print | intros _]).
  apply (requests_bind 0 0).
  - destruct (all_signals st'); [apply requests_print | apply requests_print_signals].
  - intros _. count_requests.
Qed.

(* ===================================================================== *)
(** * The indicator step on a long history *)
(* ===================================================================== *)

Lemma align_length (n : nat) (col : Column) : List.length (align n col) = n.
Proof.
  unfold align. rewrite length_app, length_firstn, repeat_length. lia.
Qed.

(** The frame the indicator step builds from 200 bars or more. *)
Lemma calculate_indicators_long (ta : TechnicalAnalysis) (series : list Bar) :
  (200 <= List.length series)%nat ->
  calculate_indicators ta (Some (frame_of_bars series)) =
  Some (mkDataFrame series
          (let n := List.length series in
           let c := map close series in
           [("SMA7", align n (ta_sma ta c 7));
            ("SMA25", align n (ta_sma ta c 25));
            ("SMA100", align n (ta_sma ta c 100));
            ("SMA200", align n (ta_sma ta c 200));
            ("EMA20", align n (ta_ema ta c 20));
            ("MACD", align n (fst (fst (ta_macd ta c 12 26 9))));
            ("MACD_Hist", align n (snd (fst (ta_macd ta c 12 26 9))));
            ("MACD_Signal", align n (snd (ta_macd ta c 12 26 9)))])).
Proof.
  intros Hlen. unfold calculate_indicators.
  assert (Hge : (len (frame_of_bars series) <? 200)%nat = false)
    by (apply Nat.ltb_ge; exact Hlen).
  rewrite Hge.
  cbv beta zeta iota delta [macd_frame close_column set_column concat_columns
                             frame_of_bars len bars].
  destruct (ta_macd ta (map close series) 12 26 9) as [[line hist] sig].
  reflexivity.
Qed.

(** For every series of 200 bars or more, whatever [pandas_ta] computes,
    the indicator step keeps the bars as they are and adds eight columns,
    one for each derived field under its final name, every one as long as
    the series; the frame no longer counts as short of history. *)
Theorem long_series_gets_all_indicators (ta : TechnicalAnalysis) (series : list Bar) :
  (200 <= List.length series)%nat ->
  exists d,
    calculate_indicators ta (Some (frame_of_bars series)) = Some d /\
    bars d = series /\
    List.length (derived d) = 8%nat /\
    (forall name, In name derived_fields -> has_column name d = true) /\
    (forall name col, In (name, col) (derived d) ->
       List.length col = List.length series) /\
    insufficientHistory d = false.
Proof.
  intros Hlen. eexists. split; [apply (calculate_indicators_long ta series Hlen) |].
  split; [reflexivity | split; [reflexivity | split; [| split; [| reflexivity]]]].
  - unfold derived_fields. cbn [In].
    intros name H; repeat (destruct H as [<- | H]; [reflexivity |]); contradiction.
  - cbn [derived In]. intros name col H.
    repeat (destruct H as [H | H]; [injection H as _ <-; apply align_length |]).
    contradiction.
Qed.

Lemma long_series_gets_all_indicators_witness :
  exists d,
    calculate_indicators (constant_ta 1%float) (Some (frame_of_bars flat_history)) = Some d /\
    bars d = flat_history /\
    has_column "MACD_Signal" d = true.
Proof.
  destruct (long_series_gets_all_indicators (constant_ta 1%float) flat_history)
    as (d & Hd & Hbars & _ & Hcols & _).
  - cbn. lia.
  - exists d. split; [exact Hd | split; [exact Hbars |]].
    apply Hcols. cbn. tauto.
Defined.

(* ===================================================================== *)
(** * What [detect_signals] reads *)
(* ===================================================================== *)

(** With two bars there are a last row and a row before it. *)
Lemma last_two_rows (d : DataFrame) :
  (2 <= len d)%nat ->
  exists last_row prev_row,
    iloc d (-1) = Returned last_row /\ iloc d (-2) = Returned prev_row.
Proof.
  intros Hlen.
  assert (Hne : empty d = false) by (unfold empty; apply Nat.eqb_neq; lia).
  destruct (iloc_last_returns d Hne) as [last_row Hlast].
  destruct (iloc_prev_returns d Hlen) as [prev_row Hprev].
  eauto.
Qed.

Lemma row_get_missing_column (d : DataFrame) (i : Z) (r : Row) (name : string) :
  existsb (String.eqb name) base_columns = false ->
  iloc d i = Returned r ->
  has_column name d = false ->
  row_get r name = Raised (KeyError name).
Proof.
  intros Hbase Hrow Hcol.
  apply row_get_not_in_cells.
  rewrite (iloc_row_cells d i r Hrow), <- has_column_derived; assumption.
Qed.

(** The result of [detect_signals] once its eight reads are known. *)
Lemma detect_signals_by_rules (d : DataFrame) (timeframe : string) (last_row prev_row : Row)
    (ema20 macd signal hist prev_macd prev_signal prev_hist : float) :
  iloc d (-1) = Returned last_row ->
  iloc d (-2) = Returned prev_row ->
  has_column "EMA20" d = true ->
  has_column "MACD" d = true ->
  row_get last_row "EMA20" = Returned ema20 ->
  row_get last_row "MACD" = Returned macd ->
  row_get last_row "MACD_Signal" = Returned signal ->
  row_get last_row "MACD_Hist" = Returned hist ->
  row_get prev_row "MACD" = Returned prev_macd ->
  row_get prev_row "MACD_Signal" = Returned prev_signal ->
  row_get prev_row "MACD_Hist" = Returned prev_hist ->
  detect_signals (Some d) timeframe =
  Returned (emission_rules timeframe (row_close last_row) ema20 macd signal hist
              prev_macd prev_signal prev_hist).
Proof.
  intros Hlast Hprev Hema Hmacd He Hm Hs Hh Hpm Hps Hph.
  unfold detect_signals, emission_rules.
  rewrite Hlast, Hprev. cbn [obind]. rewrite Hema, Hmacd. cbn [negb].
  rewrite He, Hm, Hs, Hh, Hph, Hpm, Hps. cbn [obind].
  destruct (macd <? 0)%float, (0 <? macd)%float,
    ((prev_macd <=? prev_signal)%float && (signal <? macd)%float),
    ((prev_signal <=? prev_macd)%float && (macd <? signal)%float),
    (abs (row_close last_row - ema20) / row_close last_row <? NEAR)%float,
    ((prev_hist <? hist)%float && (hist <? 0)%float),
    ((hist <? prev_hist)%float && (0 <? hist)%float); reflexivity.
Qed.

(** With two bars or more and the four columns it reads, the reads of
    [detect_signals] succeed. *)
Lemma detect_signals_reads (d : DataFrame) :
  (2 <= len d)%nat ->
  has_column "EMA20" d = true -> has_column "MACD" d = true ->
  has_column "MACD_Signal" d = true -> has_column "MACD_Hist" d = true ->
  exists last_row prev_row ema20 macd signal hist prev_macd prev_signal prev_hist,
    iloc d (-1) = Returned last_row /\
    iloc d (-2) = Returned prev_row /\
    row_get last_row "EMA20" = Returned ema20 /\
    row_get last_row "MACD" = Returned macd /\
    row_get last_row "MACD_Signal" = Returned signal /\
    row_get last_row "MACD_Hist" = Returned hist /\
    row_get prev_row "MACD" = Returned prev_macd /\
    row_get prev_row "MACD_Signal" = Returned prev_signal /\
    row_get prev_row "MACD_Hist" = Returned prev_hist.
Proof.
  intros Hlen Hema Hmacd Hsig Hhist.
  destruct (last_two_rows d Hlen) as (last_row & prev_row & Hlast & Hprev).
  destruct (row_get_column d (-1) last_row "EMA20" eq_refl Hlast Hema) as [ema20 He].
  destruct (row_get_column d (-1) last_row "MACD" eq_refl Hlast Hmacd) as [macd Hm].
  destruct (row_get_column d (-1) last_row "MACD_Signal" eq_refl Hlast Hsig) as [signal Hs].
  destruct (row_get_column d (-1) last_row "MACD_Hist" eq_refl Hlast Hhist) as [hist Hh].
  destruct (row_get_column d (-2) prev_row "MACD" eq_refl Hprev Hmacd) as [prev_macd Hpm].
  destruct (row_get_column d (-2) prev_row "MACD_Signal" eq_refl Hprev Hsig)
    as [prev_signal Hps].
  destruct (row_get_column d (-2) prev_row "MACD_Hist" eq_refl Hprev Hhist)
    as [prev_hist Hph].
  exists last_row, prev_row, ema20, macd, signal, hist, prev_macd, prev_signal, prev_hist.
  repeat split; assumption.
Qed.

(** A frame with two bars or more and the four columns EMA20, MACD,
    MACD_Signal and MACD_Hist never makes [detect_signals] raise: the call
    returns the alerts of four rules, each decided on its own from the
    last two rows and appended in the fixed order golden cross, return-move
    buy, dead cross, return-move sell. *)
Theorem detect_signals_returns_rules (d : DataFrame) (timeframe : string) :
  (2 <= len d)%nat ->
  has_column "EMA20" d = true -> has_column "MACD" d = true ->
  has_column "MACD_Signal" d = true -> has_column "MACD_Hist" d = true ->
  exists last_row prev_row ema20 macd signal hist prev_macd prev_signal prev_hist,
    iloc d (-1) = Returned last_row /\
    iloc d (-2) = Returned prev_row /\
    row_get last_row "EMA20" = Returned ema20 /\
    row_get last_row "MACD" = Returned macd /\
    row_get last_row "MACD_Signal" = Returned signal /\
    row_get last_row "MACD_Hist" = Returned hist /\
    row_get prev_row "MACD" = Returned prev_macd /\
    row_get prev_row "MACD_Signal" = Returned prev_signal /\
    row_get prev_row "MACD_Hist" = Returned prev_hist /\
    detect_signals (Some d) timeframe =
      Returned (emission_rules timeframe (row_close last_row) ema20 macd signal hist
                  prev_macd prev_signal prev_hist).
Proof.
  intros Hlen Hema Hmacd Hsig Hhist.
  destruct (detect_signals_reads d Hlen Hema Hmacd Hsig Hhist)
    as (last_row & prev_row & ema20 & macd & signal & hist & prev_macd & prev_signal
        & prev_hist & Hlast & Hprev & He & Hm & Hs & Hh & Hpm & Hps & Hph).
  exists last_row, prev_row, ema20, macd, signal, hist, prev_macd, prev_signal, prev_hist.
  repeat (split; [assumption |]).
  exact (detect_signals_by_rules d timeframe last_row prev_row ema20 macd signal hist
           prev_macd prev_signal prev_hist Hlast Hprev Hema Hmacd He Hm Hs Hh Hpm Hps Hph).
Qed.

Lemma detect_signals_returns_rules_witness :
  exists sigs,
    detect_signals (Some frame_cross_and_return_move) "1d" = Returned sigs /\
    sigs = [signal_message "1d" MacdGoldenCrossLow; signal_message "1d" ReturnMoveBuy].
Proof.
  destruct (detect_signals_returns_rules frame_cross_and_return_move "1d")
    as (last_row & prev_row & ema20 & macd & signal & hist & prev_macd & prev_signal
        & prev_hist & Hlast & Hprev & He & Hm & Hs & Hh & Hpm & Hps & Hph & Hrun);
    try reflexivity.
  eexists. split; [exact Hrun |].
  vm_compute in Hlast, Hprev.
  injection Hlast as <-. injection Hprev as <-.
  vm_compute in He, Hm, Hs, Hh, Hpm, Hps, Hph.
  injection He as <-. injection Hm as <-. injection Hs as <-. injection Hh as <-.
  injection Hpm as <-. injection Hps as <-. injection Hph as <-.
  reflexivity.
Defined.

(** [detect_signals] looks for the EMA20 and the MACD columns only: on a
    frame of two bars or more that has both but lacks the MACD_Signal
    column the call raises [KeyError] for that column, and on one that has
    these three but lacks the MACD_Hist column it raises [KeyError] for
    MACD_Hist. *)
Theorem detect_signals_unchecked_columns (d : DataFrame) (timeframe : string) :
  (2 <= len d)%nat ->
  has_column "EMA20" d = true -> has_column "MACD" d = true ->
  (has_column "MACD_Signal" d = false ->
   detect_signals (Some d) timeframe = Raised (KeyError "MACD_Signal")) /\
  (has_column "MACD_Signal" d = true -> has_column "MACD_Hist" d = false ->
   detect_signals (Some d) timeframe = Raised (KeyError "MACD_Hist")).
Proof.
  intros Hlen Hema Hmacd.
  destruct (last_two_rows d Hlen) as (last_row & prev_row & Hlast & Hprev).
  destruct (row_get_column d (-1) last_row "EMA20" eq_refl Hlast Hema) as [ema20 He].
  destruct (row_get_column d (-1) last_row "MACD" eq_refl Hlast Hmacd) as [macd Hm].
  split.
  - intros Hsig. unfold detect_signals.
    rewrite Hlast, Hprev. cbn [obind]. rewrite Hema, Hmacd. cbn [negb].
    rewrite He, Hm. cbn [obind].
    rewrite (row_get_missing_column d (-1) last_row "MACD_Signal" eq_refl Hlast Hsig).
    reflexivity.
  - intros Hsig Hhist. unfold detect_signals.
    destruct (row_get_column d (-1) last_row "MACD_Signal" eq_refl Hlast Hsig)
      as [signal Hs].
    rewrite Hlast, Hprev. cbn [obind]. rewrite Hema, Hmacd. cbn [negb].
    rewrite He, Hm, Hs. cbn [obind].
    rewrite (row_get_missing_column d (-1) last_row "MACD_Hist" eq_refl Hlast Hhist).
    reflexivity.
Qed.

Lemma detect_signals_unchecked_columns_witness :
  detect_signals (Some frame_without_signal) "1d" = Raised (KeyError "MACD_Signal") /\
  detect_signals (Some frame_without_hist) "1d" = Raised (KeyError "MACD_Hist").
Proof.
  split.
  - apply (detect_signals_unchecked_columns frame_without_signal "1d");
      [cbn; lia | reflexivity | reflexivity | reflexivity].
  - apply (detect_signals_unchecked_columns frame_without_hist "1d");
      [cbn; lia | reflexivity | reflexivity | reflexivity | reflexivity].
Defined.

(* ===================================================================== *)
(** * No look-back *)
(* ===================================================================== *)

Lemma iloc_last_empty (d : DataFrame) :
  empty d = true -> iloc d (-1) = Raised out_of_bounds.
Proof.
  unfold empty, iloc, len. intros Hempty. apply Nat.eqb_eq in Hempty.
  rewrite Hempty. reflexivity.
Qed.

Lemma iloc_last_same_empty (d1 d2 : DataFrame) :
  iloc d1 (-1) = iloc d2 (-1) -> empty d1 = empty d2.
Proof.
  intros Hsame.
  destruct (empty d1) eqn:H1, (empty d2) eqn:H2; try reflexivity.
  - destruct (iloc_last_returns d2 H2) as [r Hr].
    rewrite (iloc_last_empty d1 H1), Hr in Hsame. discriminate.
  - destruct (iloc_last_returns d1 H1) as [r Hr].
    rewrite (iloc_last_empty d2 H2), Hr in Hsame. discriminate.
Qed.

(** [analyze_trend] looks at the last bar only: two frames with the same
    last row that agree on having the SMA200 and SMA100 columns get the
    same answer, whatever their earlier bars and however many there are. *)
Theorem analyze_trend_reads_last_bar_only (d1 d2 : DataFrame) (timeframe : string) :
  iloc d1 (-1) = iloc d2 (-1) ->
  has_column "SMA200" d1 = has_column "SMA200" d2 ->
  has_column "SMA100" d1 = has_column "SMA100" d2 ->
  analyze_trend (Some d1) timeframe = analyze_trend (Some d2) timeframe.
Proof.
  intros Hrow H200 H100. unfold analyze_trend.
  rewrite (iloc_last_same_empty d1 d2 Hrow), Hrow, H200, H100. reflexivity.
Qed.

Lemma analyze_trend_reads_last_bar_only_witness :
  analyze_trend (Some frame_up) "1d" = analyze_trend (Some last_bar_of_frame_up) "1d".
Proof.
  apply (analyze_trend_reads_last_bar_only frame_up last_bar_of_frame_up "1d");
    reflexivity.
Defined.

(** [detect_signals] looks at the last two bars only: two frames with the
    same last row and the same row before it that agree on having the
    EMA20 and MACD columns get the same answer, or the same exception. *)
Theorem detect_signals_reads_last_two_bars_only (d1 d2 : DataFrame) (timeframe : string) :
  iloc d1 (-1) = iloc d2 (-1) ->
  iloc d1 (-2) = iloc d2 (-2) ->
  has_column "EMA20" d1 = has_column "EMA20" d2 ->
  has_column "MACD" d1 = has_column "MACD" d2 ->
  detect_signals (Some d1) timeframe = detect_signals (Some d2) timeframe.
Proof.
  intros Hlast Hprev Hema Hmacd. unfold detect_signals.
  rewrite Hlast, Hprev, Hema, Hmacd. reflexivity.
Qed.

Lemma detect_signals_reads_last_two_bars_only_witness :
  detect_signals (Some (macd_frame_of (-0.25)%float 0.25%float)) "1d" =
  detect_signals (Some (longer_macd_frame_of (-0.25)%float 0.25%float)) "1d".
Proof.
  apply (detect_signals_reads_last_two_bars_only
           (macd_frame_of (-0.25)%float 0.25%float)
           (longer_macd_frame_of (-0.25)%float 0.25%float) "1d");
    reflexivity.
Defined.

(* ===================================================================== *)
(** * The pipeline on what the exchange answers *)
(* ===================================================================== *)

Lemma frame_of_bars_not_empty (series : list Bar) :
  (1 <= List.length series)%nat -> empty (frame_of_bars series) = false.
Proof. intros Hlen. unfold empty. apply Nat.eqb_neq. cbn. lia. Qed.

Lemma analyze_trend_bars_only (series : list Bar) (timeframe : string) :
  (1 <= List.length series)%nat ->
  analyze_trend (Some (frame_of_bars series)) timeframe = Returned "データ不足 (>200本必要)".
Proof.
  intros Hlen. unfold analyze_trend.
  rewrite (frame_of_bars_not_empty series Hlen). reflexivity.
Qed.

Lemma detect_signals_bars_only (series : list Bar) (timeframe : string) :
  (2 <= List.length series)%nat ->
  detect_signals (Some (frame_of_bars series)) timeframe = Returned [].
Proof.
  intros Hlen.
  destruct (last_two_rows (frame_of_bars series) Hlen) as (last_row & prev_row & Hl & Hp).
  unfold detect_signals. rewrite Hl, Hp. reflexivity.
Qed.

(** Between 2 and 199 bars the pipeline degrades without raising: the
    indicator step leaves the frame as it is, the trend is the text for
    too little data and no signal is emitted. *)
Theorem short_history_pipeline (ta : TechnicalAnalysis) (series : list Bar)
    (timeframe : string) :
  (2 <= List.length series < 200)%nat ->
  analyze_trend (calculate_indicators ta (Some (frame_of_bars series))) timeframe =
    Returned "データ不足 (>200本必要)" /\
  detect_signals (calculate_indicators ta (Some (frame_of_bars series))) timeframe =
    Returned [].
Proof.
  intros [Hmin Hmax].
  rewrite (calculate_indicators_short ta (frame_of_bars series) Hmax).
  split.
  - apply analyze_trend_bars_only. lia.
  - apply detect_signals_bars_only. exact Hmin.
Qed.

Lemma short_history_pipeline_witness :
  analyze_trend (calculate_indicators (constant_ta 1%float) (Some (frame_of_bars two_bars)))
    "1w" = Returned "データ不足 (>200本必要)" /\
  detect_signals (calculate_indicators (constant_ta 1%float) (Some (frame_of_bars two_bars)))
    "1w" = Returned [].
Proof.
  apply (short_history_pipeline (constant_ta 1%float) two_bars "1w"). cbn. lia.
Defined.

(** The texts [analyze_trend] returns on a frame with a bar and both long
    averages. *)
Lemma analyze_trend_with_averages (d : DataFrame) (timeframe : string) :
  empty d = false ->
  has_column "SMA200" d = true -> has_column "SMA100" d = true ->
  exists text,
    analyze_trend (Some d) timeframe = Returned text /\
    In text ["データ不足"; "上昇トレンド"; "下降トレンド"; "レンジ / 中立"].
Proof.
  intros Hempty H200 H100. unfold analyze_trend.
  rewrite Hempty, H200, H100. cbn [negb orb].
  destruct (iloc_last_returns d Hempty) as [r Hr]. rewrite Hr. cbn [obind].
  destruct (row_get_column d (-1) r "SMA200" eq_refl Hr H200) as [s200 ->].
  destruct (row_get_column d (-1) r "SMA100" eq_refl Hr H100) as [s100 ->].
  cbn [obind].
  destruct (is_nan s200); [eexists; split; [reflexivity | cbn; tauto] |].
  destruct (_ && _); [eexists; split; [reflexivity | cbn; tauto] |].
  destruct (_ && _); eexists; (split; [reflexivity | cbn; tauto]).
Qed.

(** What the three steps give on a series of two bars or more. *)
Lemma pipeline_returns (ta : TechnicalAnalysis) (series : list Bar) (timeframe : string) :
  (2 <= List.length series)%nat ->
  exists d text sigs,
    calculate_indicators ta (Some (frame_of_bars series)) = Some d /\
    bars d = series /\
    analyze_trend (Some d) timeframe = Returned text /\
    detect_signals (Some d) timeframe = Returned sigs.
Proof.
  intros Hlen.
  destruct (Nat.lt_ge_cases (List.length series) 200) as [Hshort | Hlong].
  - exists (frame_of_bars series), "データ不足 (>200本必要)", [].
    split; [apply calculate_indicators_short; exact Hshort | split; [reflexivity |]].
    split; [apply analyze_trend_bars_only; lia | apply detect_signals_bars_only; exact Hlen].
  - rewrite (calculate_indicators_long ta series Hlong).
    eexists. 
    destruct (analyze_trend_returns
                (calculate_indicators ta (Some (frame_of_bars series))) timeframe)
      as [text Htext].
    rewrite (calculate_indicators_long ta series Hlong) in Htext.
    exists text.
    match goal with
    | |- exists sigs, Some ?d = _ /\ _ =>
        destruct (detect_signals_reads d Hlen eq_refl eq_refl eq_refl eq_refl)
          as (last_row & prev_row & ema20 & macd & signal & hist & prev_macd
              & prev_signal & prev_hist & Hl & Hp & He & Hm & Hs & Hh & Hpm & Hps & Hph);
        eexists; split; [reflexivity | split; [reflexivity | split; [exact Htext |]]];
        exact (detect_signals_by_rules d timeframe last_row prev_row ema20 macd signal
                 hist prev_macd prev_signal prev_hist Hl Hp eq_refl eq_refl
                 He Hm Hs Hh Hpm Hps Hph)
    end.
Qed.

(** From 200 bars on the pipeline never raises, whatever [pandas_ta]
    computes: the trend is one of the four texts for short data, up, down
    and range (never the not-available one), and [detect_signals] returns
    a list of two alerts at most. *)
Theorem long_history_pipeline (ta : TechnicalAnalysis) (series : list Bar)
    (timeframe : string) :
  (200 <= List.length series)%nat ->
  exists text sigs,
    analyze_trend (calculate_indicators ta (Some (frame_of_bars series))) timeframe =
      Returned text /\
    In text ["データ不足"; "上昇トレンド"; "下降トレンド"; "レンジ / 中立"] /\
    detect_signals (calculate_indicators ta (Some (frame_of_bars series))) timeframe =
      Returned sigs /\
    (List.length sigs <= 2)%nat.
Proof.
  intros Hlong.
  assert (Hlen : (2 <= List.length series)%nat) by lia.
  destruct (pipeline_returns ta series timeframe Hlen)
    as (d & text & sigs & Hd & Hbars & Htext & Hsigs).
  rewrite Hd.
  pose proof (calculate_indicators_long ta series Hlong) as Hexplicit.
  rewrite Hd in Hexplicit. injection Hexplicit as Hexplicit.
  destruct (analyze_trend_with_averages d timeframe) as (text' & Htext' & Hin).
  - unfold empty, len. rewrite Hbars. apply Nat.eqb_neq. lia.
  - rewrite Hexplicit. reflexivity.
  - rewrite Hexplicit. reflexivity.
  - exists text', sigs. split; [exact Htext' | split; [exact Hin | split; [exact Hsigs |]]].
    destruct (detect_signals_alerts (Some d) timeframe) as (side & cross & move & Hshape).
    rewrite Hsigs in Hshape. cbn [emitted] in Hshape. rewrite Hshape.
    apply alerts_length.
Qed.

Lemma long_history_pipeline_witness :
  exists text sigs,
    analyze_trend (calculate_indicators (constant_ta 1%float)
                     (Some (frame_of_bars flat_history))) "1d" = Returned text /\
    detect_signals (calculate_indicators (constant_ta 1%float)
                      (Some (frame_of_bars flat_history))) "1d" = Returned sigs.
Proof.
  destruct (long_history_pipeline (constant_ta 1%float) flat_history "1d")
    as (text & sigs & Htext & _ & Hsigs & _).
  - cbn. lia.
  - exists text, sigs. split; assumption.
Defined.

(* ===================================================================== *)
(** * Runs that return *)
(* ===================================================================== *)

Lemma returns_with_ret {A} (post : A -> Prop) (a : A) :
  post a -> returns_with post (ret a).
Proof. intros Ha w. exists a, w. auto. Qed.

Lemma returns_with_lift {A} (post : A -> Prop) (a : A) :
  post a -> returns_with post (lift (Returned a)).
Proof. intros Ha w. exists a, w. auto. Qed.

Lemma returns_with_print (line : string) : returns_with (fun _ => True) (print line).
Proof. intros w. do 2 eexists. split; [reflexivity | exact I]. Qed.

Lemma returns_with_sleep (seconds : Q) : returns_with (fun _ => True) (sleep seconds).
Proof. intros w. do 2 eexists. split; [reflexivity | exact I]. Qed.

Lemma returns_with_bind {A B} (mid : A -> Prop) (post : B -> Prop) (c : M A) (k : A -> M B) :
  returns_with mid c -> (forall a, mid a -> returns_with post (k a)) ->
  returns_with post (bind c k).
Proof.
  intros Hc Hk w. unfold bind.
  destruct (Hc w) as (a & w1 & -> & Ha).
  exact (Hk a Ha w1).
Qed.

Lemma returns_with_print_signals (signals : list string) :
  returns_with (fun _ => True) (print_signals signals).
Proof.
  induction signals as [| sig rest IH]; cbn [print_signals].
  - apply returns_with_ret. exact I.
  - apply (returns_with_bind (fun _ => True)); [apply returns_with_print | intros _ _; exact IH].
Qed.

(** When no answer has exactly one bar, a fetched frame has two at least. *)
Lemma fetch_data_two_bars (exchange : Exchange) (symbol timeframe : string)
    (limit retries : nat) :
  never_one_bar exchange ->
  returns_with
    (fun r => match fst r with
              | Some d => exists series, d = frame_of_bars series /\
                                         (2 <= List.length series)%nat
              | None => True
              end)
    (fetch_data exchange symbol timeframe limit retries).
Proof.
  intros Hnever w. unfold fetch_data.
  destruct (fetch_loop_result exchange symbol timeframe limit retries retries
              0%nat "Unknown error" w)
    as [(b & bs & k & w' & Hrun & Hk & Hans & Hc) | (msg & w' & Hrun & Hc)].
  - do 2 eexists. split; [exact Hrun |]. cbn [fst].
    exists (b :: bs). split; [reflexivity |].
    destruct bs as [| b' bs]; [| cbn; lia].
    exfalso. exact (Hnever _ _ _ _ _ Hans).
  - do 2 eexists. split; [exact Hrun | exact I].
Qed.

(** During an outage no frame is fetched. *)
Lemma fetch_data_outage (exchange : Exchange) (symbol timeframe : string)
    (limit retries : nat) :
  outage exchange ->
  returns_with (fun r => fst r = None)
    (fetch_data exchange symbol timeframe limit retries).
Proof.
  intros Hout w. unfold fetch_data.
  destruct (fetch_loop_all_failed exchange symbol timeframe limit retries retries
              0%nat "Unknown error" w) as (w' & Hrun & _).
  - intros k _. apply Hout.
  - do 2 eexists. split; [exact Hrun | reflexivity].
Qed.

Lemma last_or_zero_returns (d : DataFrame) (name : string) :
  empty d = false ->
  existsb (String.eqb name) base_columns = false ->
  exists v, last_or_zero d name = Returned v.
Proof.
  intros Hempty Hbase. unfold last_or_zero.
  destruct (has_column name d) eqn:Hcol; [| eexists; reflexivity].
  destruct (iloc_last_returns d Hempty) as [r Hr]. rewrite Hr. cbn [obind].
  destruct (row_get_column d (-1) r name Hbase Hr Hcol) as [v Hv].
  rewrite Hv. cbn [obind].
  destruct (is_nan v); cbn [negb obind]; eexists; reflexivity.
Qed.

Section MainReturns.

Variable ta : TechnicalAnalysis.
Variable fmt : Formatter.
Variable exchange : Exchange.

(** The turn of a timeframe returns when its frame has two bars. *)
Lemma main_turn_returns (st : MainState) (tf : string * string) :
  never_one_bar exchange ->
  returns_with (fun _ => True) (main_turn ta fmt exchange st tf).
Proof.
  intros Hnever. unfold main_turn.
  apply (returns_with_bind (fun _ => True)); [apply returns_with_print | intros _ _].
  eapply returns_with_bind; [apply (fetch_data_two_bars exchange); exact Hnever |].
  intros r Hr. cbv beta in Hr.
  apply (returns_with_bind (fun _ => True)).
  - destruct (fst r) as [d0 |].
    + destruct Hr as (series & -> & Hlen).
      destruct (pipeline_returns ta series (fst tf) Hlen)
        as (d & text & sigs & Hd & Hbars & Htext & Hsigs).
      cbv zeta. rewrite Hd, Htext, Hsigs.
      assert (Hempty : empty d = false).
      { unfold empty, len. rewrite Hbars. apply Nat.eqb_neq. lia. }
      destruct (iloc_last_returns d Hempty) as [last Hlast].
      destruct (last_or_zero_returns d "SMA200" Hempty eq_refl) as [sma200 Hsma].
      destruct (last_or_zero_returns d "MACD" Hempty eq_refl) as [macd_val Hmacd].
      rewrite Hlast, Hsma, Hmacd.
      repeat (eapply returns_with_bind; [apply returns_with_lift; exact I | intros ? _]).
      apply returns_with_ret. exact I.
    + apply (returns_with_bind (fun _ => True)); [apply returns_with_print | intros _ _].
      apply returns_with_ret. exact I.
  - intros st' _.
    apply (returns_with_bind (fun _ => True)); [apply returns_with_sleep | intros _ _].
    apply returns_with_ret. exact I.
Qed.

Lemma main_loop_returns (timeframes : list (string * string)) :
  never_one_bar exchange ->
  forall st, returns_with (fun _ => True) (main_loop ta fmt exchange timeframes st).
Proof.
  intros Hnever. induction timeframes as [| tf rest IH]; intros st; cbn [main_loop].
  - apply returns_with_ret. exact I.
  - apply (returns_with_bind (fun _ => True)); [apply main_turn_returns; exact Hnever |].
    intros st' _. apply IH.
Qed.

(** During an outage a turn leaves the variables of the loop alone. *)
Lemma main_turn_outage (st : MainState) (tf : string * string) :
  outage exchange ->
  returns_with (fun st' => st' = st) (main_turn ta fmt exchange st tf).
Proof.
  intros Hout. unfold main_turn.
  apply (returns_with_bind (fun _ => True)); [apply returns_with_print | intros _ _].
  eapply returns_with_bind; [apply (fetch_data_outage exchange); exact Hout |].
  intros r Hr. cbv beta in Hr. rewrite Hr.
  apply (returns_with_bind (fun st' => st' = st)).
  - apply (returns_with_bind (fun _ => True)); [apply returns_with_print | intros _ _].
    apply returns_with_ret. reflexivity.
  - intros st' ->.
    apply (returns_with_bind (fun _ => True)); [apply returns_with_sleep | intros _ _].
    apply returns_with_ret. reflexivity.
Qed.

Lemma main_loop_outage (timeframes : list (string * string)) :
  outage exchange ->
  forall st, returns_with (fun st' => st' = st) (main_loop ta fmt exchange timeframes st).
Proof.
  intros Hout. induction timeframes as [| tf rest IH]; intros st; cbn [main_loop].
  - apply returns_with_ret. reflexivity.
  - apply (returns_with_bind (fun st' => st' = st)); [apply main_turn_outage; exact Hout |].
    intros st' ->. apply IH.
Qed.

End MainReturns.

(** [main] raises only over a frame of one bar: when the exchange never
    answers exactly one bar (each request raises, answers nothing or
    answers two bars or more), the loop over any table of timeframes and
    [main] as a whole return, whatever [pandas_ta] computes. *)
Theorem main_returns_unless_single_bar (ta : TechnicalAnalysis) (fmt : Formatter)
    (exchange : Exchange) (to_string : list (list Cell) -> string) (current_year : Z) :
  never_one_bar exchange ->
  (forall timeframes st,
     returns_with (fun _ => True) (main_loop ta fmt exchange timeframes st)) /\
  returns_with (fun _ => True) (main ta fmt exchange to_string current_year).
Proof.
  intros Hnever. split.
  - intros timeframes st. apply main_loop_returns. exact Hnever.
  - unfold main.
    do 5 (apply (returns_with_bind (fun _ => True)); [apply returns_with_print | intros _ _]).
    apply (returns_with_bind (fun _ => True)); [apply main_loop_returns; exact Hnever |].
    intros st _.
    do 3 (apply (returns_with_bind (fun _ => True)); [apply returns_with_print | intros _ _]).
    apply (returns_with_bind (fun _ => True)).
    + destruct (all_signals st); [apply returns_with_print | apply returns_with_print_signals].
    + intros _ _.
      apply (returns_with_bind (fun _ => True)); [apply returns_with_print | intros _ _].
      apply returns_with_print.
Qed.

Lemma main_returns_unless_single_bar_witness :
  exists w', main no_ta no_fmt always_two_bars (fun _ => "") 2025 start = (Returned tt, w').
Proof.
  destruct (main_returns_unless_single_bar no_ta no_fmt always_two_bars (fun _ => "") 2025)
    as [_ Hmain].
  - intros k symbol timeframe limit b H. discriminate H.
  - destruct (Hmain start) as ([] & w' & Hrun & _). exists w'. exact Hrun.
Defined.

(** During an outage (every request raises or answers no bar) [main]
    still returns: it prints the table of no row at all and the line that
    says no signal was found. *)
Theorem main_survives_outage (ta : TechnicalAnalysis) (fmt : Formatter)
    (exchange : Exchange) (to_string : list (list Cell) -> string) (current_year : Z)
    (w : World) :
  outage exchange ->
  exists w',
    main ta fmt exchange to_string current_year w = (Returned tt, w') /\
    In (to_string []) (printed w') /\
    In "現在、高確率なシグナルは検知されていません。" (printed w').
Proof.
  intros Hout. unfold main, bind, print. cbn [calls slept printed].
  match goal with
  | |- context [main_loop ta fmt exchange TIMEFRAMES main_init ?w0] =>
      destruct (main_loop_outage ta fmt exchange TIMEFRAMES Hout main_init w0)
        as (st & w1 & Hrun & ->)
  end.
  rewrite Hrun. cbn [all_signals rows main_init calls slept printed].
  eexists. split; [reflexivity |].
  cbn [printed]. rewrite !in_app_iff. cbn [In]. split; auto 10.
Qed.

Lemma main_survives_outage_witness :
  exists w',
    main no_ta no_fmt (always_raises "down") (fun _ => "(empty)") 2025 start =
      (Returned tt, w') /\
    In "(empty)" (printed w').
Proof.
  destruct (main_survives_outage no_ta no_fmt (always_raises "down") (fun _ => "(empty)")
              2025 start) as (w' & Hrun & Htable & _).
  - intros k symbol timeframe limit. reflexivity.
  - exists w'. split; assumption.
Defined.

(* ===================================================================== *)
(** * The rows of the table *)
(* ===================================================================== *)

Lemma ensures_trivial {A} (c : M A) : ensures (fun _ => True) c.
Proof. intros w a w' _. exact I. Qed.

Lemma ensures_ret {A} (post : A -> Prop) (a : A) : post a -> ensures post (ret a).
Proof. intros Ha w a' w' H. injection H as <- _. exact Ha. Qed.

Lemma ensures_bind {A B} (mid : A -> Prop) (post : B -> Prop) (c : M A) (k : A -> M B) :
  ensures mid c -> (forall a, mid a -> ensures post (k a)) -> ensures post (bind c k).
Proof.
  intros Hc Hk w b w' H. unfold bind in H.
  destruct (c w) as [[a | e] w1] eqn:Hcw; [| discriminate].
  exact (Hk a (Hc w a w1 Hcw) w1 b w' H).
Qed.

Lemma subsequence_length {A} (l1 l2 : list A) :
  subsequence l1 l2 -> (List.length l1 <= List.length l2)%nat.
Proof. induction 1; cbn; lia. Qed.

Section MainRows.

Variable ta : TechnicalAnalysis.
Variable fmt : Formatter.
Variable exchange : Exchange.

(** A turn adds no row, or one row that starts with its timeframe. *)
Lemma main_turn_rows (st : MainState) (tf : string * string) :
  ensures (fun st' => rows st' = rows st \/
                      exists row, rows st' = (rows st ++ [row])%list /\
                                  row_label row = fst tf)
    (main_turn ta fmt exchange st tf).
Proof.
  unfold main_turn.
  apply (ensures_bind (fun _ => True)); [apply ensures_trivial | intros _ _].
  apply (ensures_bind (fun _ => True)); [apply ensures_trivial | intros r _].
  eapply ensures_bind.
  2: { intros st' Hst'.
       apply (ensures_bind (fun _ => True)); [apply ensures_trivial | intros _ _].
       apply ensures_ret. exact Hst'. }
  destruct (fst r) as [d0 |].
  - cbv zeta.
    apply (ensures_bind (fun _ => True)); [apply ensures_trivial | intros trend _].
    apply (ensures_bind (fun _ => True)); [apply ensures_trivial | intros signals _].
    destruct (calculate_indicators ta (Some d0)) as [d |].
    + apply (ensures_bind (fun _ => True)); [apply ensures_trivial | intros last _].
      apply (ensures_bind (fun _ => True)); [apply ensures_trivial | intros sma200 _].
      apply (ensures_bind (fun _ => True)); [apply ensures_trivial | intros macd_val _].
      apply ensures_ret. right. eexists. split; reflexivity.
    + intros w a w' H. discriminate H.
  - apply (ensures_bind (fun _ => True)); [apply ensures_trivial | intros _ _].
    apply ensures_ret. left. reflexivity.
Qed.

Lemma main_loop_rows (timeframes : list (string * string)) :
  forall st,
  ensures (fun st' => exists added,
             rows st' = (rows st ++ added)%list /\
             subsequence (map row_label added) (map fst timeframes))
    (main_loop ta fmt exchange timeframes st).
Proof.
  induction timeframes as [| tf rest IH]; intros st; cbn [main_loop].
  - apply ensures_ret. exists []. rewrite app_nil_r. split; [reflexivity | constructor].
  - eapply ensures_bind; [apply main_turn_rows |].
    intros st1 Hturn w st' w' Hrun.
    destruct (IH st1 w st' w' Hrun) as (added & Hrows & Hsub).
    destruct Hturn as [Hsame | (row & Hone & Hlabel)].
    + exists added. rewrite Hrows, Hsame. split; [reflexivity |].
      cbn [map]. apply subsequence_skip. exact Hsub.
    + exists (row :: added). rewrite Hrows, Hone, <- app_assoc.
      split; [reflexivity |].
      cbn [map]. rewrite Hlabel. apply subsequence_keep. exact Hsub.
Qed.

End MainRows.

(** When the loop of [main] returns, the rows it has added to the table
    are rows of configured timeframes, one per timeframe at most, in the
    configured order: their first cells are the timeframe labels with
    some left out. *)
Theorem main_rows_follow_timeframes (ta : TechnicalAnalysis) (fmt : Formatter)
    (exchange : Exchange) (timeframes : list (string * string))
    (st st' : MainState) (w w' : World) :
  main_loop ta fmt exchange timeframes st w = (Returned st', w') ->
  exists added,
    rows st' = (rows st ++ added)%list /\
    subsequence (map row_label added) (map fst timeframes) /\
    (List.length added <= List.length timeframes)%nat.
Proof.
  intros Hrun.
  destruct (main_loop_rows ta fmt exchange timeframes st w st' w' Hrun)
    as (added & Hrows & Hsub).
  exists added. split; [exact Hrows | split; [exact Hsub |]].
  apply subsequence_length in Hsub. rewrite !length_map in Hsub. exact Hsub.
Qed.

Lemma main_rows_follow_timeframes_witness :
  exists st' added,
    fst (main_loop no_ta no_fmt (raises_first 3 two_bars) TIMEFRAMES main_init start) =
      Returned st' /\
    rows st' = added /\
    subsequence (map row_label added) ["1M"; "1w"; "1d"; "4h"; "1h"].
Proof.
  pose proof (surjective_pairing
                (main_loop no_ta no_fmt (raises_first 3 two_bars) TIMEFRAMES main_init start))
    as Hpair.
  destruct (fst (main_loop no_ta no_fmt (raises_first 3 two_bars) TIMEFRAMES main_init start))
    as [st' | e] eqn:Hfst.
  - destruct (main_rows_follow_timeframes no_ta no_fmt (raises_first 3 two_bars) TIMEFRAMES
                main_init st' start _ Hpair) as (added & Hrows & Hsub & _).
    exists st', added. split; [reflexivity | split; [exact Hrows | exact Hsub]].
  - vm_compute in Hfst. discriminate Hfst.
Defined.

(* ===================================================================== *)
(** * The colour of the trend cell *)
(* ===================================================================== *)

(** Every text [analyze_trend] returns is one of its six, each with a
    label, and [color_trend] paints it by that label: green for up, pink
    for down and white for range, too little data and not available. *)
Theorem trend_cell_colour (df : option DataFrame) (timeframe : string) :
  exists text label,
    analyze_trend df timeframe = Returned text /\
    In text trend_texts /\
    trend_label text = Some label /\
    App.color_trend text =
      match label with
      | Up => GREEN
      | Down => PINK
      | Range | InsufficientData | NotAvailable => WHITE
      end.
Proof.
  assert (Hknown : forall text, In text trend_texts ->
            exists label, trend_label text = Some label /\
              App.color_trend text =
                match label with
                | Up => GREEN
                | Down => PINK
                | Range | InsufficientData | NotAvailable => WHITE
                end).
  { unfold trend_texts. cbn [In]. intros text H.
    repeat (destruct H as [<- | H]; [eexists; split; reflexivity |]). contradiction. }
  assert (Hrange : exists text, analyze_trend df timeframe = Returned text /\
                                In text trend_texts).
  { destruct df as [d |]; [| exists "N/A"; split; [reflexivity | cbn; tauto]].
    destruct (empty d) eqn:Hempty.
    { exists "N/A". unfold analyze_trend. rewrite Hempty. split; [reflexivity | cbn; tauto]. }
    destruct (has_column "SMA200" d) eqn:H200, (has_column "SMA100" d) eqn:H100;
      try (exists "データ不足 (>200本必要)"; unfold analyze_trend;
           rewrite Hempty, H200, H100; split; [reflexivity | cbn; tauto]).
    destruct (analyze_trend_with_averages d timeframe Hempty H200 H100)
      as (text & Htext & Hin).
    exists text. split; [exact Htext |].
    unfold trend_texts. cbn [In] in *. tauto. }
  destruct Hrange as (text & Htext & Hin).
  destruct (Hknown text Hin) as (label & Hlabel & Hcolour).
  exists text, label. auto.
Qed.

(* ===================================================================== *)
(** * The alerts of a run *)
(* ===================================================================== *)

Lemma ensures_lift {A} (post : A -> Prop) (o : outcome A) :
  (forall a, o = Returned a -> post a) -> ensures post (lift o).
Proof. intros Ho w a w' H. injection H as H _. exact (Ho a H). Qed.

Lemma alerts_are_messages (timeframe : string) (side : Direction) (cross move : bool)
    (s : string) :
  In s (alerts timeframe side cross move) -> exists k, s = signal_message timeframe k.
Proof.
  unfold alerts. intros Hin. apply in_app_or in Hin.
  destruct Hin as [Hin | Hin]; [destruct cross | destruct move];
    cbn in Hin; try contradiction;
    destruct Hin as [<- | []]; eexists; reflexivity.
Qed.

Lemma detect_signals_are_messages (df : option DataFrame) (timeframe : string)
    (sigs : list string) :
  detect_signals df timeframe = Returned sigs ->
  forall s, In s sigs -> exists k, s = signal_message timeframe k.
Proof.
  intros Hrun s Hin.
  destruct (detect_signals_alerts df timeframe) as (side & cross & move & Hshape).
  rewrite Hrun in Hshape. cbn [emitted] in Hshape. rewrite Hshape in Hin.
  exact (alerts_are_messages timeframe side cross move s Hin).
Qed.

Section MainSignals.

Variable ta : TechnicalAnalysis.
Variable fmt : Formatter.
Variable exchange : Exchange.

Lemma main_turn_signals (st : MainState) (tf : string * string) :
  ensures (fun st' => exists sigs,
             all_signals st' = (all_signals st ++ sigs)%list /\
             forall s, In s sigs -> exists k, s = signal_message (fst tf) k)
    (main_turn ta fmt exchange st tf).
Proof.
  unfold main_turn.
  apply (ensures_bind (fun _ => True)); [apply ensures_trivial | intros _ _].
  apply (ensures_bind (fun _ => True)); [apply ensures_trivial | intros r _].
  eapply ensures_bind.
  2: { intros st' Hst'.
       apply (ensures_bind (fun _ => True)); [apply ensures_trivial | intros _ _].
       apply ensures_ret. exact Hst'. }
  destruct (fst r) as [d0 |].
  - cbv zeta.
    apply (ensures_bind (fun _ => True)); [apply ensures_trivial | intros trend _].
    eapply ensures_bind.
    { apply ensures_lift. intros sigs Hsigs.
      exact (detect_signals_are_messages _ _ sigs Hsigs). }
    intros signals Hsignals.
    destruct (calculate_indicators ta (Some d0)) as [d |].
    + apply (ensures_bind (fun _ => True)); [apply ensures_trivial | intros last _].
      apply (ensures_bind (fun _ => True)); [apply ensures_trivial | intros sma200 _].
      apply (ensures_bind (fun _ => True)); [apply ensures_trivial | intros macd_val _].
      apply ensures_ret. exists signals. split; [reflexivity | exact Hsignals].
    + intros w a w' H. discriminate H.
  - apply (ensures_bind (fun _ => True)); [apply ensures_trivial | intros _ _].
    apply ensures_ret. exists []. rewrite app_nil_r. split; [reflexivity |].
    intros s [].
Qed.

Lemma main_loop_signals (timeframes : list (string * string)) :
  forall st,
  ensures (fun st' => exists added,
             all_signals st' = (all_signals st ++ added)%list /\
             forall s, In s added ->
               exists tf_key k, In tf_key (map fst timeframes) /\
                                s = signal_message tf_key k)
    (main_loop ta fmt exchange timeframes st).
Proof.
  induction timeframes as [| tf rest IH]; intros st; cbn [main_loop].
  - apply ensures_ret. exists []. rewrite app_nil_r. split; [reflexivity |].
    intros s [].
  - eapply ensures_bind; [apply main_turn_signals |].
    intros st1 (sigs & Hone & Hsigs) w st' w' Hrun.
    destruct (IH st1 w st' w' Hrun) as (added & Hall & Hadded).
    exists (sigs ++ added)%list. rewrite Hall, Hone, <- app_assoc.
    split; [reflexivity |].
    intros s Hin. apply in_app_or in Hin. destruct Hin as [Hin | Hin].
    + destruct (Hsigs s Hin) as [k ->]. exists (fst tf), k. cbn [map In]. auto.
    + destruct (Hadded s Hin) as (tf_key & k & Hkey & ->).
      exists tf_key, k. cbn [map In]. auto.
Qed.

End MainSignals.

(** When the loop of [main] returns, every alert it has collected is one
    of the four alert texts behind the bracketed label of a configured
    timeframe. *)
Theorem main_signals_are_labelled (ta : TechnicalAnalysis) (fmt : Formatter)
    (exchange : Exchange) (timeframes : list (string * string))
    (st st' : MainState) (w w' : World) :
  main_loop ta fmt exchange timeframes st w = (Returned st', w') ->
  exists added,
    all_signals st' = (all_signals st ++ added)%list /\
    forall s, In s added ->
      exists tf_key k, In tf_key (map fst timeframes) /\ s = signal_message tf_key k.
Proof.
  intros Hrun.
  exact (main_loop_signals ta fmt exchange timeframes st w st' w' Hrun).
Qed.

Lemma main_signals_are_labelled_witness :
  exists st',
    fst (main_loop crossing_ta no_fmt always_history TIMEFRAMES main_init start) =
      Returned st' /\
    In (signal_message "4h" MacdGoldenCrossLow) (all_signals st') /\
    forall s, In s (all_signals st') ->
      exists tf_key k, In tf_key ["1M"; "1w"; "1d"; "4h"; "1h"] /\
                       s = signal_message tf_key k.
Proof.
  pose proof (surjective_pairing
                (main_loop crossing_ta no_fmt always_history TIMEFRAMES main_init start))
    as Hpair.
  destruct (fst (main_loop crossing_ta no_fmt always_history TIMEFRAMES main_init start))
    as [st' | e] eqn:Hfst.
  - destruct (main_signals_are_labelled crossing_ta no_fmt always_history TIMEFRAMES
                main_init st' start _ Hpair) as (added & Hall & Hadded).
    exists st'. split; [reflexivity | split].
    + vm_compute in Hfst. injection Hfst as <-. vm_compute. auto 10.
    + intros s Hin. apply Hadded. rewrite Hall in Hin. exact Hin.
  - vm_compute in Hfst. discriminate Hfst.
Defined.

(* ===================================================================== *)
(** * The pause between timeframes *)
(* ===================================================================== *)

Lemma wait_after_no_pause (o : outcome (list Bar)) (k : nat) :
  filter is_pause (wait_after o k) = [].
Proof.
  destruct o as [[| b bs] | e]; cbn [wait_after filter]; try reflexivity.
  unfold is_pause, Qeq_bool, inject_Z. cbn [Qnum Qden].
  destruct (Z.of_nat k * 2 =? 1 * 1)%Z eqn:H; [| reflexivity].
  apply Z.eqb_eq in H. lia.
Qed.

Lemma filter_flat_map_nil {A B} (p : B -> bool) (f : A -> list B) (l : list A) :
  (forall a, filter p (f a) = []) -> filter p (flat_map f l) = [].
Proof.
  intros Hf. induction l as [| a l IH]; cbn [flat_map]; [reflexivity |].
  rewrite filter_app, Hf, IH. reflexivity.
Qed.

Lemma pauses_ret {A} (a : A) : adds_pauses 0 (ret a).
Proof. intros w a' w' H. injection H as _ <-. lia. Qed.

Lemma pauses_lift {A} (o : outcome A) : adds_pauses 0 (lift o).
Proof. intros w a w' H. injection H as _ <-. lia. Qed.

Lemma pauses_print (line : string) : adds_pauses 0 (print line).
Proof. intros w a w' H. injection H as _ <-. unfold pauses. cbn. lia. Qed.

Lemma pauses_sleep_half : adds_pauses 1 (sleep (1 # 2)).
Proof.
  intros w a w' H. injection H as _ <-. unfold pauses. cbn [slept].
  rewrite filter_app, length_app. reflexivity.
Qed.

Lemma pauses_bind {A B} (n m : nat) (c : M A) (k : A -> M B) :
  adds_pauses n c -> (forall a, adds_pauses m (k a)) -> adds_pauses (n + m) (bind c k).
Proof.
  intros Hc Hk w b w' H. unfold bind in H.
  destruct (c w) as [[a | e] w1] eqn:Hcw; [| discriminate].
  rewrite (Hk a w1 b w' H), (Hc w a w1 Hcw). lia.
Qed.

(** The waits of the retry loop are whole seconds, never the pause. *)
Lemma pauses_fetch_data (exchange : Exchange) (symbol timeframe : string)
    (limit retries : nat) :
  adds_pauses 0 (fetch_data exchange symbol timeframe limit retries).
Proof.
  intros w a w' H. unfold fetch_data in H.
  destruct (fetch_loop_slept exchange symbol timeframe limit retries retries
              0%nat "Unknown error" w) as (n & _ & _ & _ & Hslept).
  rewrite H in Hslept. cbn [snd] in Hslept.
  unfold pauses. rewrite Hslept, filter_app, length_app.
  rewrite filter_flat_map_nil by (intros k; apply wait_after_no_pause).
  reflexivity.
Qed.

Ltac count_pauses :=
  repeat first
    [ apply pauses_ret | apply pauses_lift | apply pauses_print
    | apply (pauses_bind 0 0) | intro ].

Lemma pauses_main_turn (ta : TechnicalAnalysis) (fmt : Formatter) (exchange : Exchange)
    (st : MainState) (tf : string * string) :
  adds_pauses 1 (main_turn ta fmt exchange st tf).
Proof.
  unfold main_turn.
  apply (pauses_bind 0 1); [apply pauses_print | intros _].
  apply (pauses_bind 0 1); [apply pauses_fetch_data | intros r].
  apply (pauses_bind 0 1).
  - destruct (fst r) as [d0 |]; [| count_pauses].
    apply (pauses_bind 0 0); [apply pauses_lift | intros trend].
    apply (pauses_bind 0 0); [apply pauses_lift | intros signals].
    destruct (calculate_indicators ta (Some d0)); count_pauses.
  - intros st'. apply (pauses_bind 1 0); [apply pauses_sleep_half | intros _].
    apply pauses_ret.
Qed.

Lemma pauses_main_loop (ta : TechnicalAnalysis) (fmt : Formatter) (exchange : Exchange)
    (timeframes : list (string * string)) :
  forall st, adds_pauses (List.length timeframes) (main_loop ta fmt exchange timeframes st).
Proof.
  induction timeframes as [| tf rest IH]; intros st; cbn [main_loop List.length].
  - apply pauses_ret.
  - apply (pauses_bind 1 (List.length rest)); [apply pauses_main_turn | exact IH].
Qed.

(** A run of the loop of [main] that returns has paused for half a second
    exactly once per timeframe, after the timeframes whose fetch failed as
    well; the waits of the retry loop are never half a second. *)
Theorem main_pauses_once_per_timeframe (ta : TechnicalAnalysis) (fmt : Formatter)
    (exchange : Exchange) (timeframes : list (string * string))
    (st st' : MainState) (w w' : World) :
  main_loop ta fmt exchange timeframes st w = (Returned st', w') ->
  pauses w' = (pauses w + List.length timeframes)%nat.
Proof.
  intros Hrun.
  exact (pauses_main_loop ta fmt exchange timeframes st w st' w' Hrun).
Qed.

Lemma main_pauses_once_per_timeframe_witness :
  pauses (snd (main_loop no_ta no_fmt (raises_first 3 two_bars) TIMEFRAMES main_init start)) =
  5%nat.
Proof.
  pose proof (surjective_pairing
                (main_loop no_ta no_fmt (raises_first 3 two_bars) TIMEFRAMES main_init start))
    as Hpair.
  destruct (fst (main_loop no_ta no_fmt (raises_first 3 two_bars) TIMEFRAMES main_init start))
    as [st' | e] eqn:Hfst.
  - exact (main_pauses_once_per_timeframe no_ta no_fmt (raises_first 3 two_bars) TIMEFRAMES
             main_init st' start _ Hpair).
  - vm_compute in Hfst. discriminate Hfst.
Defined.

(* ===================================================================== *)
(** * The lines of the retry loop *)
(* ===================================================================== *)

Section FetchLog.

Variable exchange : Exchange.
Variables symbol timeframe : string.
Variables limit retries : nat.

Lemma fetch_loop_printed remaining :
  forall attempt last_error w,
  exists n,
    (n <= remaining)%nat /\
    calls (snd (fetch_loop exchange symbol timeframe limit retries
                  remaining attempt last_error w)) = (calls w + n)%nat /\
    printed (snd (fetch_loop exchange symbol timeframe limit retries
                    remaining attempt last_error w)) =
      (printed w ++
       flat_map (fun k => log_line timeframe retries
                            (exchange (calls w + k)%nat symbol timeframe limit)
                            (attempt + k))
                (seq 0 n))%list.
Proof.
  induction remaining as [| remaining IH]; intros attempt last_error w.
  - exists 0%nat. cbn. rewrite app_nil_r. repeat split; lia.
  - destruct (exchange (calls w) symbol timeframe limit) as [[| b bs] | e] eqn:Ha.
    + rewrite (fetch_loop_step_empty _ _ _ _ _ _ _ _ _ Ha).
      destruct (IH (S attempt) "Exchange returned 0 bars" (after_empty w))
        as (n & Hn & Hc & Hp).
      exists (S n). rewrite Hc, Hp. cbn [after_empty calls printed].
      split; [lia | split; [lia |]].
      cbn [seq flat_map]. rewrite Nat.add_0_r, Ha. cbn [log_line app].
      f_equal. rewrite flat_map_seq_shift. apply flat_map_ext. intros k.
      replace (S (calls w) + k)%nat with (calls w + S k)%nat by lia.
      replace (S attempt + k)%nat with (attempt + S k)%nat by lia.
      reflexivity.
    + rewrite (fetch_loop_step_bars _ _ _ _ _ _ _ _ _ _ _ Ha).
      exists 1%nat. cbn. rewrite Nat.add_0_r, Ha. cbn. rewrite app_nil_r.
      repeat split; lia.
    + rewrite (fetch_loop_step_raise _ _ _ _ _ _ _ _ _ _ Ha).
      destruct (IH (S attempt) (str_exc e) (after_raise timeframe retries attempt e w))
        as (n & Hn & Hc & Hp).
      exists (S n). rewrite Hc, Hp. cbn [after_raise calls printed].
      split; [lia | split; [lia |]].
      cbn [seq flat_map]. rewrite Nat.add_0_r, Nat.add_0_r, Ha. cbn [log_line].
      rewrite <- app_assoc. f_equal. f_equal.
      rewrite flat_map_seq_shift. apply flat_map_ext. intros k.
      replace (S (calls w) + k)%nat with (calls w + S k)%nat by lia.
      replace (S attempt + k)%nat with (attempt + S k)%nat by lia.
      reflexivity.
Qed.

End FetchLog.

(** [fetch_data] prints one line for each request that raised, in order,
    naming the timeframe, the number of the attempt counted from 1 out of
    [retries], and the exception's text; a request that answered no bar
    or some bars prints nothing. *)
Theorem fetch_data_log (exchange : Exchange) (symbol timeframe : string)
    (limit retries : nat) (w : World) :
  exists n,
    (n <= retries)%nat /\
    calls (snd (fetch_data exchange symbol timeframe limit retries w)) = (calls w + n)%nat /\
    printed (snd (fetch_data exchange symbol timeframe limit retries w)) =
      (printed w ++
       flat_map (fun k => log_line timeframe retries
                            (exchange (calls w + k)%nat symbol timeframe limit) k)
                (seq 0 n))%list.
Proof.
  unfold fetch_data.
  destruct (fetch_loop_printed exchange symbol timeframe limit retries retries
              0%nat "Unknown error" w) as (n & Hn & Hc & Hp).
  exists n. split; [exact Hn | split; [exact Hc |]].
  rewrite Hp. reflexivity.
Qed.

Example fetch_data_log_two_raises :
  printed (snd (fetch_data (raises_first 2 two_bars) SYMBOL "1d" LIMIT 3 start)) =
  ["Error fetching data for 1d (Attempt 1/3): timeout";
   "Error fetching data for 1d (Attempt 2/3): timeout"].
Proof. reflexivity. Qed.
